(** * The [why] command of yarn: a shallow embedding of src/cli/commands/why.js

    The file follows the source from top to bottom: the string data and the
    three regular-expression replacements of [cleanQuery], the records the
    command reads (requests, package references, hoist manifests, the
    resolver), the reporter as a trace of calls, and [run] itself in a small
    monad that threads the reporter trace and the thrown exception. *)

From Stdlib Require Import Ascii ZArith.
From stdpp Require Import base strings list gmap.

Local Open Scope Z_scope.

(** ** JavaScript strings

    A JavaScript string is a sequence of 16-bit code units; the model keeps
    the 8-bit ones ([ascii]).  Of the four line terminators that [.] of a
    regular expression refuses, LF and CR are in that alphabet (U+2028 and
    U+2029 are not). *)

Definition LF : ascii := "010"%char.
Definition CR : ascii := "013"%char.
Definition hashChar : ascii := "#"%char.

(** The character class [[\\/]]. *)
Definition isSep (c : ascii) : bool :=
  Ascii.eqb c "\"%char || Ascii.eqb c "/"%char.

(** What [.] refuses to match. *)
Definition isLineTerminator (c : ascii) : bool :=
  Ascii.eqb c LF || Ascii.eqb c CR.

Definition notSep (c : ascii) : bool := negb (isSep c).
Definition notLineTerminator (c : ascii) : bool := negb (isLineTerminator c).
Definition isHash (c : ascii) : bool := Ascii.eqb hashChar c.

Fixpoint allChars (p : ascii -> bool) (s : string) : bool :=
  match s with
  | EmptyString => true
  | String c t => p c && allChars p t
  end.

(** [s.startsWith(p)]. *)
Fixpoint startsWith (p s : string) : bool :=
  match p, s with
  | EmptyString, _ => true
  | String a p', String b s' => Ascii.eqb a b && startsWith p' s'
  | String _ _, EmptyString => false
  end.

Fixpoint dropChars (n : nat) (s : string) : string :=
  match n, s with
  | O, _ => s
  | S k, EmptyString => EmptyString
  | S k, String _ t => dropChars k t
  end.

Definition headIs (p : ascii -> bool) (s : string) : bool :=
  match s with
  | EmptyString => false
  | String c _ => p c
  end.

(** ** [String.prototype.replace] with a global pattern

    A pattern is given by its matcher: at a position of the subject (the
    flag says whether it is index 0, where [^] holds; the string is the rest
    of the subject from that position) it returns the length of the match
    that starts there, if there is one.  [replaceFrom] is the loop of
    [replace] for a pattern with the [g] flag and a replacement string
    without [$]: the subject is scanned from left to right, a match is
    replaced and the scan goes on behind it (one character further after an
    empty match), everything else is copied.  [skip] counts the characters
    of the current match that are still to be passed over. *)

Definition Pattern := bool -> string -> option nat.

Fixpoint replaceFrom (re : Pattern) (by_ : string)
    (atStart : bool) (skip : nat) (s : string) : string :=
  match s with
  | EmptyString =>
      match skip, re atStart EmptyString with
      | O, Some _ => by_
      | _, _ => EmptyString
      end
  | String c t =>
      match skip with
      | S k => replaceFrom re by_ false k t
      | O =>
          match re atStart s with
          | Some (S n) => by_ +:+ replaceFrom re by_ false n t
          | Some O => by_ +:+ String c (replaceFrom re by_ false O t)
          | None => String c (replaceFrom re by_ false O t)
          end
      end
  end.

Definition replace (re : Pattern) (by_ : string) (s : string) : string :=
  replaceFrom re by_ true O s.

(** [node_modules[\\/]] at the head of [s]: 12 characters and a separator. *)
Definition nodeModulesSep (s : string) : bool :=
  startsWith "node_modules" s && headIs isSep (dropChars 12 s).

(** [/([\\/]|^)node_modules[\\/]/g]: the first alternative takes a separator,
    the second one is tried at the same position and holds at index 0 only. *)
Definition reNodeModules : Pattern := fun atStart s =>
  if headIs isSep s && nodeModulesSep (dropChars 1 s) then Some 14%nat
  else if atStart && nodeModulesSep s then Some 13%nat
  else None.

Fixpoint countLeading (p : ascii -> bool) (s : string) : nat :=
  match s with
  | EmptyString => O
  | String c t => if p c then S (countLeading p t) else O
  end.

(** [/^#+/g]: one or more [#] at index 0, as many as there are. *)
Definition reLeadingHashes : Pattern := fun atStart s =>
  if atStart then
    match countLeading isHash s with
    | O => None
    | n => Some n
    end
  else None.

(** [/[\\/](.*?)$/g]: a separator, then lazily any characters but line
    terminators, up to the end of the subject ([$] without the [m] flag is
    the end of input).  The lazy group can only stop at the end, so the match
    exists iff no line terminator follows the separator, and it is the whole
    rest of the subject. *)
Definition rePathTail : Pattern := fun _ s =>
  match s with
  | EmptyString => None
  | String c t =>
      if isSep c && allChars notLineTerminator t
      then Some (String.length s)
      else None
  end.

(** ** cleanQuery *)

(** What why.js calls outside the repository's data: [path.isAbsolute] and
    [path.relative] of Node, [fs.exists] of util/fs.js (the state of the
    file system at the call) and [emoji.get] of node-emoji. *)
Record Host := {
  isAbsolute : string -> bool;
  relative : string -> string -> string;
  fs_exists : string -> bool;
  emoji_get : string -> string
}.

Record Config := { cwd : string }.

(** The three replacements, lines 33 to 39. *)
Definition cleanQueryString (query : string) : string :=
  let query := replace reNodeModules "#" query in
  let query := replace reLeadingHashes "" query in
  let query := replace rePathTail "" query in
  query.

Definition cleanQuery (host : Host) (config : Config) (query : string)
    : string :=
  let query :=
    if isAbsolute host query && fs_exists host query
    then relative host (cwd config) query
    else query in
  cleanQueryString query.

(** ** The data [run] reads

    A request points to the request that asked for it; following
    [parentRequest] ends at a root request. *)
#[local] Unset Elimination Schemes.
Inductive Request := mkRequest {
  pattern : string;
  parentRequest : option Request
}.
#[local] Set Elimination Schemes.

Record PackageReference := {
  patterns : list string;
  requests : list Request
}.

Record Manifest := {
  name : string;
  _reference : option PackageReference
}.

Record HoistManifest := {
  key : string;
  previousKeys : list string;
  originalKey : string;
  pkg : Manifest
}.

(** [getFlatHoistedTree] returns an array of [[location, info]] pairs. *)
Definition HoistManifestTuples := list (string * HoistManifest).

(** Modelled from the spec: the resolver's table from pattern to resolved
    package (package-resolver.js is not under src/; spec 4.1 gives the two
    accessors over it). *)
Record PackageResolver := { resolved : gmap string Manifest }.

(** What [run] obtains from the [Install] object after [resolver.init]: the
    resolver, the origin of the root patterns (an object used as a map from
    pattern to the name of a manifest section, read by
    [rootPatternsToOrigin[pattern]]) and the flat hoisted tree
    ([install.linker.getFlatHoistedTree(patterns)]). *)
Record Install := {
  resolver : PackageResolver;
  rootPatternsToOrigin : gmap string string;
  hoisted : HoistManifestTuples
}.

Inductive Exception :=
  | InvariantViolation (message : string)
  | UnresolvedPatternError (pat : string).

Definition Result (A : Type) : Type := Exception + A.

(** Modelled from the spec: [getResolvedPattern(pattern)] is the resolved
    package or none (spec 4.1). *)
Definition getResolvedPattern (r : PackageResolver) (p : string)
    : option Manifest :=
  resolved r !! p.

(** Modelled from the spec: [getStrictResolvedPattern(pattern)] fails with
    UnresolvedPatternError if the pattern is absent (spec 4.1). *)
Definition getStrictResolvedPattern (r : PackageResolver) (p : string)
    : Result Manifest :=
  match getResolvedPattern r p with
  | Some m => inr m
  | None => inl (UnresolvedPatternError p)
  end.

(** ** The reporter

    [reporter.lang(key, ...args)] formats a message and returns it; the
    language table is not part of why.js, so [lang] is a parameter.  The
    other methods print: a run leaves the list of these calls, in order. *)
Inductive LangArg :=
  | ArgString (s : string)
  | ArgNumber (n : Z).

Record Reporter := { lang : string -> list LangArg -> string }.

Inductive ReporterCall :=
  | Step (current total : Z) (msg emoji : string)
  | Info (msg : string)
  | Error (msg : string)
  | List (listKey : string) (items : list string).

(** ** The monad of [run]: the reporter calls so far, and a result or the
    exception that was thrown. *)
Definition M (A : Type) : Type :=
  list ReporterCall -> Result A * list ReporterCall.

Definition ret {A} (a : A) : M A := fun t => (inr a, t).

Definition bind {A B} (m : M A) (f : A -> M B) : M B := fun t =>
  match m t with
  | (inr a, t') => f a t'
  | (inl e, t') => (inl e, t')
  end.

Definition liftResult {A} (r : Result A) : M A := fun t => (r, t).

Definition call (c : ReporterCall) : M unit := fun t => (inr tt, t ++ [c]).

Notation "'let!' x ':=' m 'in' k" := (bind m (fun x => k))
  (at level 10, x name, m at level 100, k at level 200).
Notation "'do!' m 'in' k" := (bind m (fun _ => k))
  (at level 10, m at level 100, k at level 200).

(** [invariant(value, message)] on an optional value. *)
Definition invariant {A} (v : option A) (message : string) : M A :=
  match v with
  | Some a => ret a
  | None => liftResult (inl (InvariantViolation message))
  end.

(** ** Helpers of the JavaScript library *)

(** [array.indexOf(x)]: the first index of [x], or -1. *)
Fixpoint indexOfFrom (i : Z) (l : list string) (x : string) : Z :=
  match l with
  | [] => -1
  | y :: l' => if String.eqb y x then i else indexOfFrom (i + 1) l' x
  end.

Definition indexOf (l : list string) (x : string) : Z := indexOfFrom 0 l x.

(** [array.join(sep)]. *)
Fixpoint join (sep : string) (l : list string) : string :=
  match l with
  | [] => ""
  | [x] => x
  | x :: l' => x +:+ sep +:+ join sep l'
  end.

(** A string in a condition: the empty string is false. *)
Definition truthy (s : string) : bool := negb (String.eqb s "").

(** ** run *)

(** Lines 65 to 71: the first entry of the hoisted tree whose key is the
    query or whose previous keys hold it. *)
Fixpoint findMatch (hoisted : HoistManifestTuples) (query : string)
    : option HoistManifest :=
  match hoisted with
  | [] => None
  | (_, info) :: rest =>
      if String.eqb (key info) query || (0 <=? indexOf (previousKeys info) query)
      then Some info
      else findMatch rest query
  end.

(** Lines 98 to 103: the do-while loop that climbs from [delegator] to the
    root request and pushes one package name per request. *)
Fixpoint walkChain (resolver : PackageResolver) (delegator : Request)
    (chain : list string) : Result (list string) :=
  match delegator with
  | mkRequest pat parent =>
      match getStrictResolvedPattern resolver pat with
      | inl e => inl e
      | inr m =>
          let chain := chain ++ [name m] in
          match parent with
          | Some delegator' => walkChain resolver delegator' chain
          | None => inr chain
          end
      end
  end.

(** Lines 88 to 105: the body of the loop over the requests; [None] is
    [continue], [Some reason] is what the iteration pushes. *)
Definition dependedOnReason (reporter : Reporter) (resolver : PackageResolver)
    (request : Request) : Result (option string) :=
  match parentRequest request with
  | None => inr None
  | Some parentRequest =>
      match getResolvedPattern resolver (pattern parentRequest) with
      | None => inr None
      | Some dependent =>
          match walkChain resolver parentRequest [] with
          | inl e => inl e
          | inr chain =>
              inr (Some (lang reporter "whyDependedOn"
                           [ArgString (join "#" (reverse chain))]))
          end
      end
  end.

(** Lines 87 to 106. *)
Fixpoint dependedOnReasons (reporter : Reporter) (resolver : PackageResolver)
    (matchRequests : list Request) (reasons : list string)
    : Result (list string) :=
  match matchRequests with
  | [] => inr reasons
  | request :: rest =>
      match dependedOnReason reporter resolver request with
      | inl e => inl e
      | inr None => dependedOnReasons reporter resolver rest reasons
      | inr (Some reason) =>
          dependedOnReasons reporter resolver rest (reasons ++ [reason])
      end
  end.

(** Lines 109 to 115. *)
Fixpoint specifiedReasons (reporter : Reporter)
    (origins : gmap string string) (matchPatterns : list string)
    (reasons : list string) : list string :=
  match matchPatterns with
  | [] => reasons
  | pat :: rest =>
      let reasons :=
        match origins !! pat with
        | Some rootType =>
            if truthy rootType
            then reasons ++ [lang reporter "whySpecified" [ArgString rootType]]
            else reasons
        | None => reasons
        end in
      specifiedReasons reporter origins rest reasons
  end.

(** Lines 123 to 127. *)
Fixpoint hoistedFromReasons (reporter : Reporter) (matchKey : string)
    (keys : list string) (reasons : list string) : list string :=
  match keys with
  | [] => reasons
  | pat :: rest =>
      let reasons :=
        if negb (String.eqb pat matchKey)
        then reasons ++ [lang reporter "whyHoistedFrom" [ArgString pat]]
        else reasons in
      hoistedFromReasons reporter matchKey rest reasons
  end.

(** Lines 130 to 137. *)
Definition reportReasons (reporter : Reporter) (reasons : list string)
    : M unit :=
  match reasons with
  | [reason] => call (Info (lang reporter "whyReason" [ArgString reason]))
  | _ :: _ :: _ =>
      do! call (Info (lang reporter "whyReasons" [])) in
      call (List "reasons" reasons)
  | [] => call (Error (lang reporter "whyWhoKnows" []))
  end.

(** Lines 140 to 149. *)
Definition reportStats (reporter : Reporter) : M unit :=
  do! call (Info (lang reporter "whyDiskSizeWithout" [ArgString "0MB"])) in
  do! call (Info (lang reporter "whyDiskSizeUnique" [ArgString "0MB"])) in
  do! call (Info (lang reporter "whyDiskSizeTransitive" [ArgString "0MB"])) in
  call (Info (lang reporter "whySharedDependencies" [ArgNumber 0])).

(** Lines 78 to 149: what [run] does with the entry it found. *)
Definition explain (reporter : Reporter) (install : Install)
    (query : string) (match_ : HoistManifest) : M unit :=
  let! matchRef := invariant (_reference (pkg match_)) "expected reference" in
  let matchPatterns := patterns matchRef in
  let matchRequests := requests matchRef in
  let! reasons := liftResult
    (dependedOnReasons reporter (resolver install) matchRequests []) in
  let reasons :=
    specifiedReasons reporter (rootPatternsToOrigin install)
      matchPatterns reasons in
  do! (if String.eqb query (originalKey match_)
       then call (Info (lang reporter "whyHoistedTo" [ArgString (key match_)]))
       else ret tt) in
  let reasons :=
    hoistedFromReasons reporter (key match_) (previousKeys match_) reasons in
  do! reportReasons reporter reasons in
  reportStats reporter.

(** [run(config, reporter, flags, args)] from the point where its inputs are
    there: [arg] is [args[0]], a string, and [install] is what the awaits of
    lines 56 to 60 delivered.  A call without an argument, a rejection of one
    of these awaits and the reporter calls made inside them are outside this
    definition; the reporter calls it records are those of why.js itself. *)
Definition run (host : Host) (config : Config) (reporter : Reporter)
    (install : Install) (arg : string) : M unit :=
  let query := cleanQuery host config arg in
  do! call (Step 1 3 (lang reporter "whyStart" [])
              (emoji_get host "thinking_face")) in
  do! call (Step 2 3 (lang reporter "whyInitGraph" [])
              (emoji_get host "truck")) in
  do! call (Step 3 3 (lang reporter "whyFinding" []) (emoji_get host "mag")) in
  match findMatch (hoisted install) query with
  | None => call (Error (lang reporter "whyUnknownMatch" []))
  | Some match_ => explain reporter install query match_
  end.

(** The result and the reporter calls of a whole run. *)
Definition runWhy (host : Host) (config : Config) (reporter : Reporter)
    (install : Install) (arg : string) : Result unit * list ReporterCall :=
  run host config reporter install arg [].

(** ** Vocabulary of the statements *)

(** The requests from [r] up to the root request, [r] first. *)
Fixpoint chainToRoot (r : Request) : list Request :=
  match r with
  | mkRequest _ None => [r]
  | mkRequest _ (Some p) => r :: chainToRoot p
  end.

(** The ancestor requests of [r], the immediate parent first, and their
    number, the depth of the parent chain of [r]. *)
Definition ancestors (r : Request) : list Request :=
  match parentRequest r with
  | Some p => chainToRoot p
  | None => []
  end.

Definition depth (r : Request) : nat := length (ancestors r).

(** Induction along [parentRequest]. *)
Fixpoint Request_chain_ind (P : Request -> Prop)
    (Hroot : forall pat, P (mkRequest pat None))
    (Hchild : forall pat p, P p -> P (mkRequest pat (Some p)))
    (r : Request) : P r :=
  match r with
  | mkRequest pat None => Hroot pat
  | mkRequest pat (Some p) =>
      Hchild pat p (Request_chain_ind P Hroot Hchild p)
  end.

(** An entry answers a query by its key or by one of its previous keys. *)
Definition answers (info : HoistManifest) (query : string) : Prop :=
  key info = query \/ query ∈ previousKeys info.

(** [n] is the name of the package that the pattern of request [r] resolves
    to. *)
Definition namesRequest (resolver : PackageResolver) (n : string)
    (r : Request) : Prop :=
  exists m, getResolvedPattern resolver (pattern r) = Some m /\ name m = n.

(** The reporter calls of the parts of [run]. *)
Definition stepCalls (host : Host) (reporter : Reporter)
    : list ReporterCall :=
  [ Step 1 3 (lang reporter "whyStart" []) (emoji_get host "thinking_face");
    Step 2 3 (lang reporter "whyInitGraph" []) (emoji_get host "truck");
    Step 3 3 (lang reporter "whyFinding" []) (emoji_get host "mag") ].

Definition hoistedToCalls (reporter : Reporter) (query : string)
    (match_ : HoistManifest) : list ReporterCall :=
  if String.eqb query (originalKey match_)
  then [Info (lang reporter "whyHoistedTo" [ArgString (key match_)])]
  else [].

Definition reasonCalls (reporter : Reporter) (reasons : list string)
    : list ReporterCall :=
  match reasons with
  | [] => [Error (lang reporter "whyWhoKnows" [])]
  | [reason] => [Info (lang reporter "whyReason" [ArgString reason])]
  | _ => [Info (lang reporter "whyReasons" []); List "reasons" reasons]
  end.

Definition statsCalls (reporter : Reporter) : list ReporterCall :=
  [ Info (lang reporter "whyDiskSizeWithout" [ArgString "0MB"]);
    Info (lang reporter "whyDiskSizeUnique" [ArgString "0MB"]);
    Info (lang reporter "whyDiskSizeTransitive" [ArgString "0MB"]);
    Info (lang reporter "whySharedDependencies" [ArgNumber 0]) ].

(** The classification the loop of lines 110 to 115 reports for a pattern:
    the entry of the origin map, if it is there and is not the empty
    string. *)
Definition reportedOrigin (origins : gmap string string) (pat : string)
    : option string :=
  match origins !! pat with
  | Some rootType => if truthy rootType then Some rootType else None
  | None => None
  end.

(** Modelled from the spec: the values of the origin map are the names of
    the manifest sections that declared the root patterns (spec 4.3 and 6;
    the Install class that fills the map is not under src/), so none of them
    is the empty string. *)
Definition sectionNames (origins : gmap string string) : Prop :=
  forall pat c, origins !! pat = Some c -> c <> "".

Definition specifiedList (reporter : Reporter)
    (origins : gmap string string) (matchPatterns : list string)
    : list string :=
  (fun c => lang reporter "whySpecified" [ArgString c])
    <$> omap (reportedOrigin origins) matchPatterns.

Definition hoistedFromList (reporter : Reporter) (match_ : HoistManifest)
    : list string :=
  (fun k => lang reporter "whyHoistedFrom" [ArgString k])
    <$> filter (fun k => k <> key match_) (previousKeys match_).

(** A reason is surfaced by a run when the reporter got it, alone under
    whyReason or as an item of the list of reasons. *)
Definition surfaced (reporter : Reporter) (trace : list ReporterCall)
    (reason : string) : Prop :=
  Info (lang reporter "whyReason" [ArgString reason]) ∈ trace \/
  exists items, List "reasons" items ∈ trace /\ reason ∈ items.

(** ** Concrete inputs *)

Module Sample.

(** A host on which no queried path exists. *)
Definition host : Host := {|
  isAbsolute := headIs (Ascii.eqb "/"%char);
  relative := fun _ p => p;
  fs_exists := fun _ => false;
  emoji_get := fun n => ":" +:+ n +:+ ":"
|}.

Definition config : Config := {| cwd := "/project" |}.

Definition showArg (a : LangArg) : string :=
  match a with
  | ArgString s => s
  | ArgNumber n => if (n =? 0)%Z then "0" else "n"
  end.

(** A reporter whose messages show the key and the arguments. *)
Definition reporter : Reporter := {|
  lang := fun k args => k +:+ "(" +:+ join "," (showArg <$> args) +:+ ")"
|}.

(** a@1 is a root dependency, it asks for b@1, which asks for c@1; c@2 is
    a root dependency of its own and resolves to the same package c. *)
Definition reqA : Request := mkRequest "a@1" None.
Definition reqB : Request := mkRequest "b@1" (Some reqA).
Definition reqC : Request := mkRequest "c@1" (Some reqB).
Definition reqC2 : Request := mkRequest "c@2" None.

Definition refA : PackageReference :=
  {| patterns := ["a@1"]; requests := [reqA] |}.
Definition refC : PackageReference :=
  {| patterns := ["c@1"; "c@2"]; requests := [reqC; reqC2] |}.

Definition pkgA : Manifest := {| name := "a"; _reference := Some refA |}.
Definition pkgB : Manifest := {| name := "b"; _reference := None |}.
Definition pkgC : Manifest := {| name := "c"; _reference := Some refC |}.

Definition graph : PackageResolver :=
  {| resolved := list_to_map
       [("a@1", pkgA); ("b@1", pkgB); ("c@1", pkgC); ("c@2", pkgC)] |}.

Definition infoA : HoistManifest :=
  {| key := "a"; previousKeys := []; originalKey := "a"; pkg := pkgA |}.
Definition infoC : HoistManifest :=
  {| key := "c"; previousKeys := ["a#b#c"; "c"]; originalKey := "a#b#c";
     pkg := pkgC |}.

Definition install : Install := {|
  resolver := graph;
  rootPatternsToOrigin :=
    list_to_map [("a@1", "dependencies"); ("c@2", "devDependencies")];
  hoisted := [("a", infoA); ("c", infoC)]
|}.

(** A graph in which b@1 was never resolved. *)
Definition graphWithoutB : PackageResolver :=
  {| resolved := list_to_map [("a@1", pkgA); ("c@1", pkgC); ("c@2", pkgC)] |}.

Definition installWithoutB : Install := {|
  resolver := graphWithoutB;
  rootPatternsToOrigin :=
    list_to_map [("a@1", "dependencies"); ("c@2", "devDependencies")];
  hoisted := [("a", infoA); ("c", infoC)]
|}.

(** A query with a line terminator behind a separator. *)
Definition queryWithLF : string :=
  "node_modules/node_modules/" +:+ String LF "".

End Sample.

(** ** Vocabulary of the further properties *)

(** The location of a package below nested node_modules directories, as a
    path relative to the project: [node_modules/n1/node_modules/n2/...],
    followed by [tail]. *)
Definition nodeModulesLocation (names : list string) (tail : string)
    : string :=
  "node_modules/" +:+ join "/node_modules/" names +:+ tail.

(** The test of lines 88 to 96: the request has a parent request, and the
    pattern of that parent is resolved. *)
Definition hasResolvedParent (resolver : PackageResolver)
    (request : Request) : bool :=
  match parentRequest request with
  | Some parent =>
      match getResolvedPattern resolver (pattern parent) with
      | Some _ => true
      | None => false
      end
  | None => false
  end.

(** Every request with a resolved parent has all its ancestors resolved. *)
Definition chainsResolved (resolver : PackageResolver)
    (matchRequests : list Request) : Prop :=
  forall request, request ∈ matchRequests ->
    hasResolvedParent resolver request = true ->
    forall q, q ∈ ancestors request ->
      is_Some (getResolvedPattern resolver (pattern q)).

(** Further concrete inputs. *)
Module Edge.

(** The package b of the sample graph has no reference. *)
Definition infoB : HoistManifest :=
  {| key := "b"; previousKeys := []; originalKey := "b";
     pkg := Sample.pkgB |}.

Definition installNoReference : Install := {|
  resolver := Sample.graph;
  rootPatternsToOrigin := ∅;
  hoisted := [("b", infoB)]
|}.

(** A graph in which b@1 is resolved and its parent a@1 is not. *)
Definition graphWithoutA : PackageResolver :=
  {| resolved := list_to_map
       [("b@1", Sample.pkgB); ("c@1", Sample.pkgC); ("c@2", Sample.pkgC)] |}.

Definition installWithoutA : Install := {|
  resolver := graphWithoutA;
  rootPatternsToOrigin := ∅;
  hoisted := [("c", Sample.infoC)]
|}.

(** A package asked for by a root request only, under a pattern that no
    manifest section declares, and whose history holds its current key
    only. *)
Definition reqD : Request := mkRequest "d@1" None.
Definition refD : PackageReference :=
  {| patterns := ["d@1"]; requests := [reqD] |}.
Definition pkgD : Manifest := {| name := "d"; _reference := Some refD |}.
Definition infoD : HoistManifest :=
  {| key := "d"; previousKeys := ["d"]; originalKey := "x#d"; pkg := pkgD |}.

Definition installOrphan : Install := {|
  resolver := {| resolved := {[ "d@1" := pkgD ]} |};
  rootPatternsToOrigin := ∅;
  hoisted := [("d", infoD)]
|}.

(** A host on which every path exists, and whose relative paths are cut
    out of the absolute ones behind the directory and its separator. *)
Definition hostWithFiles : Host := {|
  isAbsolute := headIs (Ascii.eqb "/"%char);
  relative := fun dir p => dropChars (String.length dir + 1) p;
  fs_exists := fun _ => true;
  emoji_get := fun n => ":" +:+ n +:+ ":"
|}.

End Edge.

(** * Theorems *)

(** Membership in a list that is written out. *)
Ltac split_elem_of :=
  repeat match goal with
    | H : _ ∈ [] |- _ => by apply elem_of_nil in H
    | H : _ ∈ _ :: _ |- _ => apply elem_of_cons in H as [H|H]
    end.

(** ** Library helpers *)

Lemma indexOfFrom_found (l : list string) (x : string) (i : Z) :
  x ∈ l -> i <= indexOfFrom i l x.
Proof.
  revert i. induction l as [|y l IH]; intros i Hx; simpl.
  - by apply elem_of_nil in Hx.
  - destruct (String.eqb y x) eqn:E; [lia|].
    apply elem_of_cons in Hx as [->|Hx].
    + rewrite String.eqb_refl in E. discriminate.
    + specialize (IH (i + 1) Hx). lia.
Qed.

Lemma indexOfFrom_missing (l : list string) (x : string) (i : Z) :
  x ∉ l -> indexOfFrom i l x = -1.
Proof.
  revert i. induction l as [|y l IH]; intros i Hx; simpl; [done|].
  apply not_elem_of_cons in Hx as [Hne Hx].
  destruct (String.eqb y x) eqn:E.
  - apply String.eqb_eq in E. congruence.
  - by apply IH.
Qed.

(** [indexOf(query) >= 0] is membership. *)
Lemma indexOf_nonneg (l : list string) (x : string) :
  (0 <=? indexOf l x) = true <-> x ∈ l.
Proof.
  unfold indexOf. split.
  - intros H. destruct (decide (x ∈ l)) as [|Hn]; [done|].
    rewrite (indexOfFrom_missing l x 0 Hn) in H. discriminate.
  - intros H. apply Z.leb_le. by apply indexOfFrom_found.
Qed.

(** The test of line 67 decides [answers]. *)
Lemma answers_test (info : HoistManifest) (query : string) :
  String.eqb (key info) query || (0 <=? indexOf (previousKeys info) query)
    = true <-> answers info query.
Proof.
  unfold answers. rewrite orb_true_iff, String.eqb_eq, indexOf_nonneg. tauto.
Qed.

Lemma findMatch_Some (hoisted : HoistManifestTuples) (query : string)
    (info : HoistManifest) :
  findMatch hoisted query = Some info <->
  exists before loc after,
    hoisted = before ++ (loc, info) :: after /\
    answers info query /\
    Forall (fun e => ~ answers e.2 query) before.
Proof.
  induction hoisted as [|[loc0 info0] rest IH]; simpl.
  - split; [done|]. intros (b & l & a & H & _).
    by destruct b.
  - destruct (String.eqb (key info0) query
              || (0 <=? indexOf (previousKeys info0) query)) eqn:E.
    + apply answers_test in E. split.
      * intros [= <-]. exists [], loc0, rest. by repeat split.
      * intros (b & l & a & H & Ha & Hb). destruct b as [|e b].
        -- simpl in H. congruence.
        -- simpl in H. injection H as <- _.
           apply Forall_cons in Hb as [Hb _]. by destruct Hb.
    + assert (~ answers info0 query) as Hno.
      { rewrite <- answers_test. congruence. }
      rewrite IH. split.
      * intros (b & l & a & -> & Ha & Hb).
        exists ((loc0, info0) :: b), l, a. repeat split; [done|].
        by apply Forall_cons.
      * intros (b & l & a & H & Ha & Hb). destruct b as [|e b].
        -- simpl in H. injection H as _ <- _. by destruct Hno.
        -- simpl in H. injection H as <- ->.
           apply Forall_cons in Hb as [_ Hb]. by exists b, l, a.
Qed.

Lemma findMatch_None (hoisted : HoistManifestTuples) (query : string) :
  findMatch hoisted query = None <->
  Forall (fun e => ~ answers e.2 query) hoisted.
Proof.
  induction hoisted as [|[loc0 info0] rest IH]; simpl.
  - split; [by constructor|done].
  - destruct (String.eqb (key info0) query
              || (0 <=? indexOf (previousKeys info0) query)) eqn:E.
    + apply answers_test in E. split; [done|].
      intros H. apply Forall_cons in H as [H _]. by destruct H.
    + assert (~ answers info0 query) as Hno.
      { rewrite <- answers_test. congruence. }
      rewrite IH. split.
      * intros H. by apply Forall_cons.
      * intros H. by apply Forall_cons in H as [_ H].
Qed.

(** ** C1 *)

(** C1: for every hoisted tree and every query, the search of lines 65 to 71
    selects an entry exactly when it is the first one, in iteration order,
    whose key is the query or whose previous keys hold the query: entries
    before it do not answer the query, entries after it are not looked at.
    It finds nothing exactly when no entry answers, so a query for a
    historical key of some entry always finds an entry. *)
Theorem C1_first_match_wins (hoisted : HoistManifestTuples) (query : string) :
  (forall info,
     findMatch hoisted query = Some info <->
     exists before loc after,
       hoisted = before ++ (loc, info) :: after /\
       (key info = query \/ query ∈ previousKeys info) /\
       Forall (fun e => ~ (key e.2 = query \/ query ∈ previousKeys e.2))
         before) /\
  (findMatch hoisted query = None <->
     Forall (fun e => ~ (key e.2 = query \/ query ∈ previousKeys e.2))
       hoisted) /\
  (forall loc info,
     (loc, info) ∈ hoisted -> query ∈ previousKeys info ->
     is_Some (findMatch hoisted query)).
Proof.
  split; [|split].
  - intros info. apply findMatch_Some.
  - apply findMatch_None.
  - intros loc info Hin Hq.
    destruct (findMatch hoisted query) eqn:E; [by eexists|].
    apply findMatch_None in E. rewrite Forall_forall in E.
    destruct (E _ Hin). right. exact Hq.
Qed.

(** Two entries answer the query "c", the first by a previous key and the
    second by its key: the first one is selected. *)
Example first_match_by_previous_key :
  findMatch
    [ ("b", {| key := "b"; previousKeys := ["c"]; originalKey := "c";
               pkg := Sample.pkgB |});
      ("c", Sample.infoC) ] "c"
    = Some {| key := "b"; previousKeys := ["c"]; originalKey := "c";
              pkg := Sample.pkgB |}.
Proof. reflexivity. Qed.

(** ** The chain walk *)

(** What the do-while loop returns: one name per request from [delegator] to
    the root, pushed behind what the chain held; or the error of the strict
    accessor at a request of that path whose pattern is not resolved. *)
Lemma walkChain_outcome (resolver : PackageResolver) (delegator : Request) :
  forall chain,
    match walkChain resolver delegator chain with
    | inr out =>
        exists names,
          out = chain ++ names /\
          Forall2 (namesRequest resolver) names (chainToRoot delegator)
    | inl e =>
        exists q,
          q ∈ chainToRoot delegator /\
          getResolvedPattern resolver (pattern q) = None /\
          e = UnresolvedPatternError (pattern q)
    end.
Proof.
  induction delegator as [pat|pat p IH] using Request_chain_ind;
    intros chain; simpl; unfold getStrictResolvedPattern;
    destruct (getResolvedPattern resolver pat) as [m|] eqn:E.
  - exists [name m]. split; [done|].
    repeat constructor. by exists m.
  - exists (mkRequest pat None). split; [apply elem_of_cons; by left|done].
  - specialize (IH (chain ++ [name m])).
    destruct (walkChain resolver p (chain ++ [name m])) as [e|out].
    + destruct IH as (q & Hq & Hnone & ->).
      exists q. split; [|done]. apply elem_of_cons. by right.
    + destruct IH as (names & -> & Hnames).
      exists (name m :: names). split; [by rewrite <- app_assoc|].
      constructor; [by exists m|done].
  - exists (mkRequest pat (Some p)). split; [|done].
    apply elem_of_cons. by left.
Qed.

Lemma walkChain_complete (resolver : PackageResolver) (delegator : Request)
    (chain : list string) :
  (forall q, q ∈ chainToRoot delegator ->
     is_Some (getResolvedPattern resolver (pattern q))) ->
  exists out, walkChain resolver delegator chain = inr out.
Proof.
  intros Hall. pose proof (walkChain_outcome resolver delegator chain) as H.
  destruct (walkChain resolver delegator chain) as [e|out]; [|by eexists].
  destruct H as (q & Hq & Hnone & _).
  destruct (Hall q Hq) as [m Hm]. congruence.
Qed.

(** The loop over the requests only adds to the reasons, one for each
    request whose iteration produces one, in the order of the requests. *)
Lemma dependedOnReasons_outcome (reporter : Reporter)
    (resolver : PackageResolver) (matchRequests : list Request) :
  forall reasons,
    match dependedOnReasons reporter resolver matchRequests reasons with
    | inr out =>
        exists produced,
          out = reasons ++ omap id produced /\
          Forall2 (fun request o =>
                     dependedOnReason reporter resolver request = inr o)
            matchRequests produced
    | inl e =>
        exists request,
          request ∈ matchRequests /\
          dependedOnReason reporter resolver request = inl e
    end.
Proof.
  induction matchRequests as [|request rest IH]; intros reasons; simpl.
  - exists []. split; [by rewrite app_nil_r|constructor].
  - destruct (dependedOnReason reporter resolver request) as [e|[reason|]]
      eqn:E.
    + exists request. split; [apply elem_of_cons; by left|done].
    + specialize (IH (reasons ++ [reason])).
      destruct (dependedOnReasons reporter resolver rest (reasons ++ [reason]))
        as [e|out].
      * destruct IH as (r & Hr & He). exists r.
        split; [apply elem_of_cons; by right|done].
      * destruct IH as (produced & -> & Hp).
        exists (Some reason :: produced). split.
        -- simpl. by rewrite <- app_assoc.
        -- by constructor.
    + specialize (IH reasons).
      destruct (dependedOnReasons reporter resolver rest reasons) as [e|out].
      * destruct IH as (r & Hr & He). exists r.
        split; [apply elem_of_cons; by right|done].
      * destruct IH as (produced & -> & Hp).
        exists (None :: produced). split; [done|by constructor].
Qed.

Lemma dependedOnReasons_member (reporter : Reporter)
    (resolver : PackageResolver) (matchRequests : list Request)
    (out : list string) (request : Request) (reason : string) :
  dependedOnReasons reporter resolver matchRequests [] = inr out ->
  request ∈ matchRequests ->
  dependedOnReason reporter resolver request = inr (Some reason) ->
  reason ∈ out.
Proof.
  intros Hout Hin Hr.
  pose proof (dependedOnReasons_outcome reporter resolver matchRequests [])
    as H.
  rewrite Hout in H. destruct H as (produced & -> & Hp). simpl.
  apply list_elem_of_lookup in Hin as [i Hi].
  destruct (Forall2_lookup_l _ _ _ _ _ Hp Hi) as (o & Ho & Heq).
  rewrite Hr in Heq. injection Heq as <-.
  apply list_elem_of_omap. exists (Some reason).
  split; [|done]. apply list_elem_of_lookup. by exists i.
Qed.

Lemma dependedOnReason_complete (reporter : Reporter)
    (resolver : PackageResolver) (request : Request) :
  (forall q, q ∈ ancestors request ->
     is_Some (getResolvedPattern resolver (pattern q))) ->
  exists o, dependedOnReason reporter resolver request = inr o.
Proof.
  intros Hall. unfold dependedOnReason, ancestors in *.
  destruct (parentRequest request) as [p|]; [|by eexists].
  destruct (getResolvedPattern resolver (pattern p)); [|by eexists].
  destruct (walkChain_complete resolver p [] Hall) as [out ->]. by eexists.
Qed.

Lemma dependedOnReasons_complete (reporter : Reporter)
    (resolver : PackageResolver) (matchRequests : list Request) :
  (forall request, request ∈ matchRequests ->
     forall q, q ∈ ancestors request ->
       is_Some (getResolvedPattern resolver (pattern q))) ->
  exists deps,
    dependedOnReasons reporter resolver matchRequests [] = inr deps.
Proof.
  intros Hall.
  pose proof (dependedOnReasons_outcome reporter resolver matchRequests [])
    as H.
  destruct (dependedOnReasons reporter resolver matchRequests [])
    as [e|deps]; [|by eexists].
  destruct H as (request & Hin & He).
  destruct (dependedOnReason_complete reporter resolver request
              (Hall request Hin)) as [o Ho].
  congruence.
Qed.

Lemma dependedOnReasons_all_skipped (reporter : Reporter)
    (resolver : PackageResolver) (matchRequests : list Request) :
  (forall request, request ∈ matchRequests ->
     dependedOnReason reporter resolver request = inr None) ->
  forall reasons,
    dependedOnReasons reporter resolver matchRequests reasons = inr reasons.
Proof.
  induction matchRequests as [|request rest IH]; intros Hall reasons; simpl.
  - done.
  - rewrite (Hall request) by (apply elem_of_cons; by left).
    apply IH. intros r Hr. apply Hall. apply elem_of_cons. by right.
Qed.

(** ** C2 *)

(** C2: for a request of the matched package whose parent request has a
    resolved pattern, the iteration of lines 88 to 105 either produces the
    reason whyDependedOn over a chain joined with '#', where the chain holds
    package names only, the name of the root request's package first and the
    name of the immediate parent's package last, one per ancestor request, so
    its length is the depth of the parent chain; or the strict accessor fails
    at an ancestor whose pattern is not resolved.  The iteration never skips
    such a request, and when the loop over all requests completes, the reason
    is in the list it returns. *)
Theorem C2_depended_on_chain (reporter : Reporter)
    (resolver : PackageResolver) (request parent : Request)
    (dependent : Manifest) :
  parentRequest request = Some parent ->
  getResolvedPattern resolver (pattern parent) = Some dependent ->
  match dependedOnReason reporter resolver request with
  | inr (Some reason) =>
      (exists chain,
         reason = lang reporter "whyDependedOn" [ArgString (join "#" chain)] /\
         Forall2 (namesRequest resolver) chain (reverse (ancestors request)) /\
         length chain = depth request) /\
      (forall matchRequests out,
         request ∈ matchRequests ->
         dependedOnReasons reporter resolver matchRequests [] = inr out ->
         reason ∈ out)
  | inr None => False
  | inl e =>
      exists q,
        q ∈ ancestors request /\
        getResolvedPattern resolver (pattern q) = None /\
        e = UnresolvedPatternError (pattern q)
  end.
Proof.
  intros Hparent Hdep.
  destruct (dependedOnReason reporter resolver request) as [e|o] eqn:Hreason.
  - unfold dependedOnReason in Hreason. rewrite Hparent, Hdep in Hreason.
    pose proof (walkChain_outcome resolver parent []) as H.
    destruct (walkChain resolver parent []) as [e'|out]; [|done].
    injection Hreason as <-. unfold ancestors. by rewrite Hparent.
  - pose proof Hreason as Hcopy.
    unfold dependedOnReason in Hreason. rewrite Hparent, Hdep in Hreason.
    pose proof (walkChain_outcome resolver parent []) as H.
    destruct (walkChain resolver parent []) as [e'|out]; [done|].
    injection Hreason as <-. destruct H as (names & -> & Hnames). simpl.
    split.
    + exists (reverse names). split; [done|].
      unfold depth, ancestors. rewrite Hparent. split.
      * by apply Forall2_reverse.
      * rewrite length_reverse. by apply Forall2_length in Hnames.
    + intros matchRequests out' Hin Hout.
      by eapply dependedOnReasons_member.
Qed.

(** The walk on the sample graph: c@1 was asked for by b@1, which was asked
    for by a@1. *)
Example C2_sample_chain :
  dependedOnReason Sample.reporter Sample.graph Sample.reqC
    = inr (Some "whyDependedOn(a#b)").
Proof. reflexivity. Qed.

(** The parent b@1 is resolved, its own parent a@1 is not: the strict
    accessor fails. *)
Example walk_fails_on_unresolved_ancestor :
  dependedOnReason Sample.reporter
    {| resolved := {[ "b@1" := Sample.pkgB ]} |} Sample.reqC
    = inl (UnresolvedPatternError "a@1").
Proof. reflexivity. Qed.

(** ** The reporter calls of a run *)

Lemma specifiedReasons_acc (reporter : Reporter)
    (origins : gmap string string) (matchPatterns : list string) :
  forall reasons,
    specifiedReasons reporter origins matchPatterns reasons
      = reasons ++ specifiedList reporter origins matchPatterns.
Proof.
  unfold specifiedList.
  induction matchPatterns as [|pat rest IH]; intros reasons; simpl.
  - by rewrite app_nil_r.
  - rewrite IH. unfold reportedOrigin at 2.
    destruct (origins !! pat) as [rootType|]; [|done].
    destruct (truthy rootType); [|done].
    by rewrite <- app_assoc.
Qed.

Lemma hoistedFromReasons_acc (reporter : Reporter) (matchKey : string)
    (keys : list string) :
  forall reasons,
    hoistedFromReasons reporter matchKey keys reasons
      = reasons ++ ((fun k => lang reporter "whyHoistedFrom" [ArgString k])
                      <$> filter (fun k => k <> matchKey) keys).
Proof.
  induction keys as [|pat rest IH]; intros reasons; simpl.
  - by rewrite app_nil_r.
  - rewrite IH, filter_cons. destruct (String.eqb pat matchKey) eqn:E; simpl.
    + apply String.eqb_eq in E. by rewrite decide_False by tauto.
    + apply String.eqb_neq in E. rewrite decide_True by done.
      by rewrite <- app_assoc.
Qed.

Lemma reportReasons_calls (reporter : Reporter) (reasons : list string)
    (t : list ReporterCall) :
  reportReasons reporter reasons t = (inr tt, t ++ reasonCalls reporter reasons).
Proof.
  unfold reasonCalls. destruct reasons as [|r [|r' rest]]; try reflexivity.
  unfold reportReasons, bind, call. simpl. by rewrite <- app_assoc.
Qed.

Lemma reportStats_calls (reporter : Reporter) (t : list ReporterCall) :
  reportStats reporter t = (inr tt, t ++ statsCalls reporter).
Proof.
  unfold reportStats, statsCalls, bind, call. simpl.
  by rewrite <- !app_assoc.
Qed.

Lemma reasonCalls_surfaced (reporter : Reporter) (reasons : list string)
    (reason : string) :
  reason ∈ reasons -> surfaced reporter (reasonCalls reporter reasons) reason.
Proof.
  intros Hin. destruct reasons as [|r [|r' rest]].
  - by apply elem_of_nil in Hin.
  - apply elem_of_cons in Hin as [->|Hin]; [|by apply elem_of_nil in Hin].
    left. apply elem_of_cons. by left.
  - right. exists (r :: r' :: rest). split; [|done].
    unfold reasonCalls, reportReasons, bind, call. simpl.
    apply elem_of_cons. right. apply elem_of_cons. by left.
Qed.

Lemma surfaced_middle (reporter : Reporter)
    (steps hoistedTo middle stats : list ReporterCall) (reason : string) :
  surfaced reporter middle reason ->
  surfaced reporter
    ((inr tt : Result unit), steps ++ hoistedTo ++ middle ++ stats).2 reason.
Proof.
  intros [H|(items & H & Hin)]; [left|right; exists items; split; [|done]];
    cbn [snd]; apply elem_of_app; right; apply elem_of_app; right;
    apply elem_of_app; by left.
Qed.

(** The run when no entry answers the query. *)
Lemma runWhy_not_found (host : Host) (config : Config) (reporter : Reporter)
    (install : Install) (arg : string) :
  findMatch (hoisted install) (cleanQuery host config arg) = None ->
  runWhy host config reporter install arg
    = (inr tt, stepCalls host reporter
                 ++ [Error (lang reporter "whyUnknownMatch" [])]).
Proof.
  intros Hnone. unfold runWhy, run, bind, call. simpl. by rewrite Hnone.
Qed.

(** The run when the matched package has no reference. *)
Lemma runWhy_no_reference (host : Host) (config : Config)
    (reporter : Reporter) (install : Install) (arg : string)
    (match_ : HoistManifest) :
  findMatch (hoisted install) (cleanQuery host config arg) = Some match_ ->
  _reference (pkg match_) = None ->
  runWhy host config reporter install arg
    = (inl (InvariantViolation "expected reference"),
       stepCalls host reporter).
Proof.
  intros Hfound Href. unfold runWhy, run, bind, call. simpl.
  rewrite Hfound. unfold explain, bind. by rewrite Href.
Qed.

(** ** C4 *)

(** C4: when no entry answers the query, the run returns normally and the
    reporter got the three steps and the error whyUnknownMatch, nothing
    else: nothing of lines 78 to 149 was executed, whatever the resolver and
    the origin map hold. *)
Theorem C4_not_found_returns (host : Host) (config : Config)
    (reporter : Reporter) (install : Install) (arg : string) :
  findMatch (hoisted install) (cleanQuery host config arg) = None ->
  runWhy host config reporter install arg
    = (inr tt,
       [ Step 1 3 (lang reporter "whyStart" [])
           (emoji_get host "thinking_face");
         Step 2 3 (lang reporter "whyInitGraph" []) (emoji_get host "truck");
         Step 3 3 (lang reporter "whyFinding" []) (emoji_get host "mag");
         Error (lang reporter "whyUnknownMatch" []) ]).
Proof. intros Hnone. by rewrite runWhy_not_found. Qed.

(** ** Runs that find an entry

    The theorems of this section are about a run whose search found the
    entry [match_], the package of which has the reference [matchRef]. *)
Section FoundEntry.

Variables (host : Host) (config : Config) (reporter : Reporter).
Variables (install : Install) (arg : string).
Variables (match_ : HoistManifest) (matchRef : PackageReference).

Hypothesis Hfound :
  findMatch (hoisted install) (cleanQuery host config arg) = Some match_.
Hypothesis Href : _reference (pkg match_) = Some matchRef.

(** The run when the chain walk throws. *)
Lemma runWhy_walk_fails (e : Exception) :
  dependedOnReasons reporter (resolver install) (requests matchRef) [] = inl e ->
  runWhy host config reporter install arg = (inl e, stepCalls host reporter).
Proof.
  intros Hdeps. unfold runWhy, run, bind, call. simpl.
  rewrite Hfound. unfold explain, bind. rewrite Href. simpl.
  unfold liftResult. by rewrite Hdeps.
Qed.

(** The run when the entry is found and the chain walk completes. *)
Lemma runWhy_found (deps : list string) :
  dependedOnReasons reporter (resolver install) (requests matchRef) []
    = inr deps ->
  runWhy host config reporter install arg
    = (inr tt,
       stepCalls host reporter
       ++ hoistedToCalls reporter (cleanQuery host config arg) match_
       ++ reasonCalls reporter
            (deps
             ++ specifiedList reporter (rootPatternsToOrigin install)
                  (patterns matchRef)
             ++ hoistedFromList reporter match_)
       ++ statsCalls reporter).
Proof.
  intros Hdeps. unfold runWhy, run, bind, call. simpl.
  rewrite Hfound. unfold explain, bind. rewrite Href. simpl.
  unfold liftResult. rewrite Hdeps.
  rewrite specifiedReasons_acc, hoistedFromReasons_acc.
  fold (hoistedFromList reporter match_). unfold hoistedToCalls.
  destruct (String.eqb (cleanQuery host config arg) (originalKey match_));
    unfold call, ret; rewrite reportReasons_calls, reportStats_calls;
    simpl; by rewrite <- !app_assoc.
Qed.

(** ** C3 *)

(** C3, as the spec states it, fails: the sample package a was never
    relocated (its key is its original key), and the query for it reports
    "hoisted to". *)
Lemma C3_reported_without_relocation :
  ~ (forall match_,
       findMatch (hoisted Sample.install)
         (cleanQuery Sample.host Sample.config "a") = Some match_ ->
       key match_ = originalKey match_ ->
       Info (lang Sample.reporter "whyHoistedTo" [ArgString (key match_)])
         ∉ (runWhy Sample.host Sample.config Sample.reporter
              Sample.install "a").2).
Proof.
  intros H. apply (H Sample.infoA); [reflexivity|reflexivity|].
  vm_compute. do 3 (apply elem_of_cons; right). apply elem_of_cons. by left.
Qed.

(** C3, amended: in a run that finds an entry and builds its reasons, the
    "hoisted to" fact, carrying the current key of the entry, is reported
    exactly when the cleaned query is the original key of the entry: it is
    the call that follows the three steps in that case, and there is no such
    call otherwise.  Whether the key differs from the original key plays no
    part. *)
Theorem C3_hoisted_to_iff_query_is_original_key (deps : list string) :
  dependedOnReasons reporter (resolver install) (requests matchRef) []
    = inr deps ->
  exists reasons,
    (cleanQuery host config arg = originalKey match_ ->
     runWhy host config reporter install arg
       = (inr tt,
          stepCalls host reporter
          ++ [Info (lang reporter "whyHoistedTo" [ArgString (key match_)])]
          ++ reasonCalls reporter reasons ++ statsCalls reporter)) /\
    (cleanQuery host config arg <> originalKey match_ ->
     runWhy host config reporter install arg
       = (inr tt,
          stepCalls host reporter
          ++ reasonCalls reporter reasons ++ statsCalls reporter)).
Proof.
  intros Hdeps. eexists. rewrite (runWhy_found deps Hdeps).
  unfold hoistedToCalls. split; intros Hq.
  - apply String.eqb_eq in Hq. rewrite Hq. reflexivity.
  - apply String.eqb_neq in Hq. rewrite Hq. reflexivity.
Qed.

(** ** C5 *)

(** The run for the sample package c, queried by its current key. *)
Example sample_run_c :
  runWhy Sample.host Sample.config Sample.reporter Sample.install "c"
    = (inr tt,
       [ Step 1 3 "whyStart()" ":thinking_face:";
         Step 2 3 "whyInitGraph()" ":truck:";
         Step 3 3 "whyFinding()" ":mag:";
         Info "whyReasons()";
         List "reasons"
           [ "whyDependedOn(a#b)"; "whySpecified(devDependencies)";
             "whyHoistedFrom(a#b#c)" ];
         Info "whyDiskSizeWithout(0MB)";
         Info "whyDiskSizeUnique(0MB)";
         Info "whyDiskSizeTransitive(0MB)";
         Info "whySharedDependencies(0)" ]).
Proof. vm_compute. reflexivity. Qed.

(** C5, as the spec states it, fails: the history of the sample package c
    holds its current key "c", and the query for it surfaces no "hoisted
    from" reason for that entry. *)
Lemma C5_current_key_not_surfaced :
  ~ (forall match_,
       findMatch (hoisted Sample.install)
         (cleanQuery Sample.host Sample.config "c") = Some match_ ->
       forall k, k ∈ previousKeys match_ ->
         surfaced Sample.reporter
           (runWhy Sample.host Sample.config Sample.reporter
              Sample.install "c").2
           (lang Sample.reporter "whyHoistedFrom" [ArgString k])).
Proof.
  intros H. specialize (H Sample.infoC eq_refl "c").
  destruct H as [H|(items & H & Hin)].
  - apply elem_of_cons. right. apply elem_of_cons. by left.
  - rewrite sample_run_c in H. simpl in H. split_elem_of; discriminate.
  - rewrite sample_run_c in H. simpl in H. split_elem_of; try discriminate.
    injection H as ->. split_elem_of; discriminate.
Qed.

(** C5, amended: in a run that finds an entry and builds its reasons, the
    reasons end with one "hoisted from" reason for every entry of
    previousKeys that differs from the current key, in the order of the
    history; entries equal to the current key give none.  Each of the former
    is surfaced by the reporter. *)
Theorem C5_hoisted_from_other_keys (deps : list string) :
  dependedOnReasons reporter (resolver install) (requests matchRef) []
    = inr deps ->
  (exists earlier,
     runWhy host config reporter install arg
       = (inr tt,
          stepCalls host reporter
          ++ hoistedToCalls reporter (cleanQuery host config arg) match_
          ++ reasonCalls reporter
               (earlier
                ++ ((fun k => lang reporter "whyHoistedFrom" [ArgString k])
                      <$> filter (fun k => k <> key match_)
                            (previousKeys match_)))
          ++ statsCalls reporter)) /\
  (forall k,
     k ∈ previousKeys match_ -> k <> key match_ ->
     surfaced reporter (runWhy host config reporter install arg).2
       (lang reporter "whyHoistedFrom" [ArgString k])).
Proof.
  intros Hdeps. rewrite (runWhy_found deps Hdeps). split.
  - eexists. rewrite (app_assoc deps). reflexivity.
  - intros k Hk Hne. apply surfaced_middle, reasonCalls_surfaced.
    apply elem_of_app. right. apply elem_of_app. right.
    unfold hoistedFromList. apply list_elem_of_fmap. exists k.
    split; [done|]. by apply list_elem_of_filter.
Qed.

(** ** C6 *)

Lemma reportedOrigin_Some (origins : gmap string string) (pat c : string) :
  reportedOrigin origins pat = Some c <-> origins !! pat = Some c /\ c <> "".
Proof.
  unfold reportedOrigin, truthy.
  destruct (origins !! pat) as [rootType|]; [|by split; [|intros []]].
  destruct (String.eqb rootType "") eqn:E; simpl.
  - apply String.eqb_eq in E. split; [done|]. intros [[= ->] Hne]. done.
  - apply String.eqb_neq in E. split.
    + by intros [= ->].
    + by intros [[= ->] _].
Qed.

(** Where the origin map holds section names, the test of line 112 is the
    test for an entry of the map. *)
Lemma reportedOrigin_sectionNames (origins : gmap string string)
    (pats : list string) :
  sectionNames origins ->
  omap (reportedOrigin origins) pats = omap (fun pat => origins !! pat) pats.
Proof.
  intros Hnames. induction pats as [|pat rest IH]; [done|].
  change (omap (reportedOrigin origins) (pat :: rest))
    with (match reportedOrigin origins pat with
          | Some c => c :: omap (reportedOrigin origins) rest
          | None => omap (reportedOrigin origins) rest
          end).
  change (omap (fun pat => origins !! pat) (pat :: rest))
    with (match origins !! pat with
          | Some c => c :: omap (fun pat => origins !! pat) rest
          | None => omap (fun pat => origins !! pat) rest
          end).
  rewrite IH. unfold reportedOrigin, truthy.
  destruct (origins !! pat) as [c|] eqn:E; [|done].
  apply Hnames in E. apply String.eqb_neq in E. by rewrite E.
Qed.

(** C6: in a run that finds an entry and builds its reasons, with an origin
    map that holds section names, the reasons hold, behind the dependency
    reasons and before the "hoisted from" reasons, one reason whySpecified
    for every pattern of the matched package that appears in the origin map,
    in the order of the patterns and carrying the classification as it is in
    the map; a pattern that is not in the map gives none.  Each of these
    reasons is surfaced by the reporter. *)
Theorem C6_specified_reasons (deps : list string) :
  sectionNames (rootPatternsToOrigin install) ->
  dependedOnReasons reporter (resolver install) (requests matchRef) []
    = inr deps ->
  (exists later,
     runWhy host config reporter install arg
       = (inr tt,
          stepCalls host reporter
          ++ hoistedToCalls reporter (cleanQuery host config arg) match_
          ++ reasonCalls reporter
               (deps
                ++ ((fun c => lang reporter "whySpecified" [ArgString c])
                      <$> omap (fun pat => rootPatternsToOrigin install !! pat)
                            (patterns matchRef))
                ++ later)
          ++ statsCalls reporter)) /\
  (forall pat c,
     pat ∈ patterns matchRef ->
     rootPatternsToOrigin install !! pat = Some c ->
     surfaced reporter (runWhy host config reporter install arg).2
       (lang reporter "whySpecified" [ArgString c])).
Proof.
  intros Hnames Hdeps. rewrite (runWhy_found deps Hdeps).
  unfold specifiedList.
  rewrite (reportedOrigin_sectionNames _ (patterns matchRef) Hnames).
  split.
  - by eexists.
  - intros pat c Hpat Hc. apply surfaced_middle, reasonCalls_surfaced.
    apply elem_of_app. right. apply elem_of_app. left.
    apply list_elem_of_fmap. exists c.
    split; [done|]. apply list_elem_of_omap. by exists pat.
Qed.

(** ** C7 *)

(** C7: when every pattern on the parent chains of the requests of the
    matched package has a resolved package, every chain walk of lines 98 to
    103 returns a chain, the loop over the requests returns its reasons, and
    the run returns normally: the failure of the strict accessor is never
    reached. *)
Theorem C7_complete_provenance_never_fails :
  (forall request, request ∈ requests matchRef ->
     forall q, q ∈ ancestors request ->
       is_Some (getResolvedPattern (resolver install) (pattern q))) ->
  (forall request parent chain,
     request ∈ requests matchRef ->
     parentRequest request = Some parent ->
     exists out, walkChain (resolver install) parent chain = inr out) /\
  (exists deps,
     dependedOnReasons reporter (resolver install) (requests matchRef) []
       = inr deps) /\
  (runWhy host config reporter install arg).1 = inr tt.
Proof.
  intros Hall. split; [|split].
  - intros request parent chain Hin Hparent.
    apply walkChain_complete. intros q Hq. apply (Hall request Hin).
    unfold ancestors. by rewrite Hparent.
  - by apply dependedOnReasons_complete.
  - destruct (dependedOnReasons_complete reporter (resolver install)
                (requests matchRef) Hall) as [deps Hdeps].
    by rewrite (runWhy_found deps Hdeps).
Qed.

(** ** C8 *)

(** C8: when every request of the matched package is a root request or has
    an immediate parent whose pattern is not resolved, no iteration of lines
    87 to 106 gives a reason and none throws: the loop leaves the reasons
    empty, and the reasons the run reports are the "specified" reasons
    followed by the "hoisted from" reasons, nothing else. *)
Theorem C8_no_chain_without_resolved_parent :
  (forall request, request ∈ requests matchRef ->
     parentRequest request = None \/
     exists parent,
       parentRequest request = Some parent /\
       getResolvedPattern (resolver install) (pattern parent) = None) ->
  (forall request, request ∈ requests matchRef ->
     dependedOnReason reporter (resolver install) request = inr None) /\
  dependedOnReasons reporter (resolver install) (requests matchRef) []
    = inr [] /\
  runWhy host config reporter install arg
    = (inr tt,
       stepCalls host reporter
       ++ hoistedToCalls reporter (cleanQuery host config arg) match_
       ++ reasonCalls reporter
            (specifiedList reporter (rootPatternsToOrigin install)
               (patterns matchRef)
             ++ hoistedFromList reporter match_)
       ++ statsCalls reporter).
Proof.
  intros Hall.
  assert (forall request, request ∈ requests matchRef ->
            dependedOnReason reporter (resolver install) request = inr None)
    as Hskip.
  { intros request Hin. unfold dependedOnReason.
    destruct (Hall request Hin) as [->|(parent & -> & ->)]; done. }
  pose proof (dependedOnReasons_all_skipped reporter (resolver install)
                (requests matchRef) Hskip []) as Hdeps.
  split; [done|]. split; [done|].
  by rewrite (runWhy_found [] Hdeps).
Qed.

End FoundEntry.

(** ** C10 *)

(** C10: a run that finds an entry and returns normally ends with the four
    statistics, and their arguments are the constants "0MB", "0MB", "0MB"
    and 0, whatever the matched package, the resolver and the hoisted tree
    are. *)
Theorem C10_constant_statistics (host : Host) (config : Config)
    (reporter : Reporter) (install : Install) (arg : string)
    (match_ : HoistManifest) :
  findMatch (hoisted install) (cleanQuery host config arg) = Some match_ ->
  (runWhy host config reporter install arg).1 = inr tt ->
  exists before,
    (runWhy host config reporter install arg).2
      = before
        ++ [ Info (lang reporter "whyDiskSizeWithout" [ArgString "0MB"]);
             Info (lang reporter "whyDiskSizeUnique" [ArgString "0MB"]);
             Info (lang reporter "whyDiskSizeTransitive" [ArgString "0MB"]);
             Info (lang reporter "whySharedDependencies" [ArgNumber 0]) ].
Proof.
  intros Hfound Hret.
  destruct (_reference (pkg match_)) as [matchRef|] eqn:Href.
  - destruct (dependedOnReasons reporter (resolver install)
                (requests matchRef) []) as [e|deps] eqn:Hdeps.
    + by rewrite (runWhy_walk_fails _ _ _ _ _ _ _ Hfound Href _ Hdeps)
        in Hret.
    + rewrite (runWhy_found _ _ _ _ _ _ _ Hfound Href _ Hdeps). cbn [snd].
      eexists. rewrite !app_assoc. reflexivity.
  - by rewrite (runWhy_no_reference _ _ _ _ _ _ Hfound Href) in Hret.
Qed.

(** ** The three replacements of cleanQuery *)

Lemma append_empty_l (s : string) : "" +:+ s = s.
Proof. reflexivity. Qed.

Lemma allChars_dropChars (p : ascii -> bool) (s : string) :
  forall n, allChars p s = true -> allChars p (dropChars n s) = true.
Proof.
  induction s as [|c t IH]; intros [|n] H; simpl in *; try done.
  apply andb_true_iff in H as [_ H]. by apply IH.
Qed.

Lemma headIs_isSep_noSep (s : string) :
  allChars notSep s = true -> headIs isSep s = false.
Proof.
  destruct s as [|c t]; simpl; [done|]. unfold notSep.
  intros H. apply andb_true_iff in H as [H _]. by apply negb_true_iff in H.
Qed.

(** The first pattern needs a separator: it has no match in a string
    without one. *)
Lemma reNodeModules_noSep (atStart : bool) (s : string) :
  allChars notSep s = true -> reNodeModules atStart s = None.
Proof.
  intros H. unfold reNodeModules, nodeModulesSep.
  rewrite (headIs_isSep_noSep s H). cbn [andb].
  rewrite (headIs_isSep_noSep _ (allChars_dropChars notSep s 12 H)).
  by rewrite !andb_false_r.
Qed.

Lemma replace_nodeModules_noSep (s : string) :
  forall atStart,
    allChars notSep s = true ->
    replaceFrom reNodeModules "#" atStart O s = s.
Proof.
  induction s as [|c t IH]; intros atStart H.
  - simpl. by rewrite reNodeModules_noSep.
  - cbn [replaceFrom]. rewrite (reNodeModules_noSep _ _ H).
    simpl in H. apply andb_true_iff in H as [_ H]. by rewrite IH.
Qed.

(** The first replacement writes '#' and copies: it brings in no character
    that the subject and '#' do not have. *)
Lemma replace_nodeModules_allChars (p : ascii -> bool) (s : string) :
  p hashChar = true ->
  forall atStart skip,
    allChars p s = true ->
    allChars p (replaceFrom reNodeModules "#" atStart skip s) = true.
Proof.
  intros Hhash. unfold hashChar in Hhash.
  induction s as [|c t IH]; intros atStart skip H.
  - destruct skip, atStart; simpl; by rewrite ?Hhash.
  - simpl in H. apply andb_true_iff in H as [Hc Ht].
    cbn [replaceFrom]. destruct skip as [|k]; [|by apply IH].
    destruct (reNodeModules atStart (String c t)) as [[|n]|]; simpl;
      rewrite ?append_empty_l; simpl; rewrite ?Hhash, ?Hc, ?IH; done.
Qed.

(** The second replacement drops the leading '#'. *)
Lemma replaceFrom_leadingHashes_inner (s : string) :
  forall skip, replaceFrom reLeadingHashes "" false skip s = dropChars skip s.
Proof.
  induction s as [|c t IH]; intros [|k]; simpl; try done.
  rewrite IH. by destruct t.
Qed.

Lemma replace_leadingHashes (s : string) :
  replace reLeadingHashes "" s = dropChars (countLeading isHash s) s.
Proof.
  unfold replace. destruct s as [|c t]; simpl; [done|].
  destruct (isHash c); simpl.
  - apply replaceFrom_leadingHashes_inner.
  - rewrite replaceFrom_leadingHashes_inner. by destruct t.
Qed.

Lemma headIs_dropChars_countLeading (p : ascii -> bool) (s : string) :
  headIs p (dropChars (countLeading p s) s) = false.
Proof.
  induction s as [|c t IH]; simpl; [done|].
  destruct (p c) eqn:E; simpl; [done|]. exact E.
Qed.

Lemma countLeading_headIs (p : ascii -> bool) (s : string) :
  headIs p s = false -> countLeading p s = O.
Proof. destruct s as [|c t]; simpl; [done|]. by intros ->. Qed.

(** The third replacement: behind a match nothing is left. *)
Lemma replaceFrom_pathTail_skip_all (t : string) :
  replaceFrom rePathTail "" false (String.length t) t = "".
Proof. induction t as [|c t IH]; simpl; done. Qed.

Lemma replace_pathTail_noSep (s : string) :
  forall atStart,
    allChars notSep s = true -> replaceFrom rePathTail "" atStart O s = s.
Proof.
  induction s as [|c t IH]; intros atStart H; simpl in *; [done|].
  apply andb_true_iff in H as [Hc Ht]. unfold notSep in Hc.
  apply negb_true_iff in Hc. rewrite Hc. simpl. by rewrite IH.
Qed.

(** Without line terminators the third replacement cuts at the first
    separator. *)
Lemma replace_pathTail_cuts (s : string) :
  forall atStart,
    allChars notLineTerminator s = true ->
    allChars notSep (replaceFrom rePathTail "" atStart O s) = true.
Proof.
  induction s as [|c t IH]; intros atStart H; simpl in *; [done|].
  apply andb_true_iff in H as [Hc Ht]. rewrite Ht, andb_true_r.
  destruct (isSep c) eqn:E; simpl.
  - by rewrite replaceFrom_pathTail_skip_all.
  - unfold notSep at 1. rewrite E. simpl. by apply IH.
Qed.

(** The third replacement keeps the first character or leaves nothing. *)
Lemma replace_pathTail_head (p : ascii -> bool) (s : string) (atStart : bool) :
  headIs p s = false ->
  headIs p (replaceFrom rePathTail "" atStart O s) = false.
Proof.
  destruct s as [|c t]; simpl; [done|]. intros Hc.
  destruct (isSep c && allChars notLineTerminator t); simpl; [|done].
  by rewrite replaceFrom_pathTail_skip_all.
Qed.

(** Whatever the query, the result does not begin with '#'. *)
Lemma cleanQueryString_no_leading_hash (query : string) :
  headIs isHash (cleanQueryString query) = false.
Proof.
  unfold cleanQueryString, replace at 1.
  apply replace_pathTail_head. rewrite replace_leadingHashes.
  apply headIs_dropChars_countLeading.
Qed.

Lemma cleanQueryString_no_separator (query : string) :
  allChars notLineTerminator query = true ->
  allChars notSep (cleanQueryString query) = true.
Proof.
  intros H. unfold cleanQueryString, replace at 1.
  apply replace_pathTail_cuts. rewrite replace_leadingHashes.
  apply allChars_dropChars. by apply replace_nodeModules_allChars.
Qed.

(** A string without separators and without a leading '#' is left as it
    is. *)
Lemma cleanQueryString_fixed (s : string) :
  allChars notSep s = true -> headIs isHash s = false ->
  cleanQueryString s = s.
Proof.
  intros Hsep Hhash. unfold cleanQueryString, replace at 3.
  rewrite (replace_nodeModules_noSep s true Hsep).
  rewrite replace_leadingHashes, (countLeading_headIs _ _ Hhash). simpl.
  replace (dropChars 0 s) with s by (by destruct s).
  by apply replace_pathTail_noSep.
Qed.

(** ** C9 *)

Example cleanQuery_ex1 :
  cleanQueryString "node_modules/foo/node_modules/bar/index.js" = "foo#bar".
Proof. reflexivity. Qed.

Example cleanQuery_ex2 :
  cleanQueryString "/a/node_modules\node_modules/b" = "".
Proof. reflexivity. Qed.

Example cleanQuery_ex3 : cleanQueryString "##foo#bar" = "foo#bar".
Proof. reflexivity. Qed.

(** C9, as the spec states it, fails: [.] does not match a line terminator,
    so the third replacement leaves a separator that is followed by one.
    The sample query is not an absolute path; its result still holds a
    separator, and cleaning the result again gives another string. *)
Lemma C9_line_terminator_breaks_cleanQuery :
  ~ (isAbsolute Sample.host Sample.queryWithLF
       && fs_exists Sample.host Sample.queryWithLF = false ->
     cleanQuery Sample.host Sample.config
       (cleanQuery Sample.host Sample.config Sample.queryWithLF)
       = cleanQuery Sample.host Sample.config Sample.queryWithLF /\
     allChars notSep
       (cleanQuery Sample.host Sample.config Sample.queryWithLF) = true /\
     headIs isHash
       (cleanQuery Sample.host Sample.config Sample.queryWithLF) = false).
Proof.
  intros H. destruct (H eq_refl) as (_ & Hsep & _).
  vm_compute in Hsep. discriminate.
Qed.

Example cleanQuery_twice_with_LF :
  cleanQueryString Sample.queryWithLF = "node_modules/" +:+ String LF "" /\
  cleanQueryString (cleanQueryString Sample.queryWithLF) = String LF "".
Proof. split; reflexivity. Qed.

(** C9, amended: for every query that is not an absolute existing path and
    holds no line terminator, cleanQuery is its string transformation, that
    transformation applied twice gives what it gives applied once, and the
    result holds no path separator and does not begin with '#'.  On a host
    whose absolute paths all hold a separator, cleanQuery itself is
    idempotent on such a query. *)
Theorem C9_cleanQuery_idempotent (host : Host) (config : Config)
    (query : string) :
  isAbsolute host query && fs_exists host query = false ->
  allChars notLineTerminator query = true ->
  cleanQuery host config query = cleanQueryString query /\
  cleanQueryString (cleanQueryString query) = cleanQueryString query /\
  allChars notSep (cleanQuery host config query) = true /\
  headIs isHash (cleanQuery host config query) = false /\
  ((forall s, allChars notSep s = true -> isAbsolute host s = false) ->
   cleanQuery host config (cleanQuery host config query)
     = cleanQuery host config query).
Proof.
  intros Hpath Hlt.
  assert (cleanQuery host config query = cleanQueryString query) as Heq.
  { unfold cleanQuery. by rewrite Hpath. }
  pose proof (cleanQueryString_no_separator query Hlt) as Hsep.
  pose proof (cleanQueryString_no_leading_hash query) as Hhash.
  pose proof (cleanQueryString_fixed _ Hsep Hhash) as Hfix.
  rewrite Heq. repeat split; try done.
  intros Habs. unfold cleanQuery at 1.
  by rewrite (Habs _ Hsep).
Qed.

(** ** The theorems at the sample inputs *)

Lemma C2_depended_on_chain_sample :
  parentRequest Sample.reqC = Some Sample.reqB /\
  getResolvedPattern Sample.graph (pattern Sample.reqB) = Some Sample.pkgB /\
  (exists chain,
     "whyDependedOn(a#b)"
       = lang Sample.reporter "whyDependedOn" [ArgString (join "#" chain)] /\
     Forall2 (namesRequest Sample.graph) chain
       (reverse (ancestors Sample.reqC)) /\
     length chain = depth Sample.reqC).
Proof.
  split; [reflexivity|]. split; [reflexivity|].
  exact (proj1 (C2_depended_on_chain Sample.reporter Sample.graph
                  Sample.reqC Sample.reqB Sample.pkgB eq_refl eq_refl)).
Defined.

Lemma C3_hoisted_to_sample :
  findMatch (hoisted Sample.install)
    (cleanQuery Sample.host Sample.config "a") = Some Sample.infoA /\
  _reference (pkg Sample.infoA) = Some Sample.refA /\
  dependedOnReasons Sample.reporter (resolver Sample.install)
    (requests Sample.refA) [] = inr [] /\
  exists reasons,
    (cleanQuery Sample.host Sample.config "a" = originalKey Sample.infoA ->
     runWhy Sample.host Sample.config Sample.reporter Sample.install "a"
       = (inr tt,
          stepCalls Sample.host Sample.reporter
          ++ [Info "whyHoistedTo(a)"]
          ++ reasonCalls Sample.reporter reasons
          ++ statsCalls Sample.reporter)) /\
    (cleanQuery Sample.host Sample.config "a" <> originalKey Sample.infoA ->
     runWhy Sample.host Sample.config Sample.reporter Sample.install "a"
       = (inr tt,
          stepCalls Sample.host Sample.reporter
          ++ reasonCalls Sample.reporter reasons
          ++ statsCalls Sample.reporter)).
Proof.
  split; [reflexivity|]. split; [reflexivity|]. split; [reflexivity|].
  exact (C3_hoisted_to_iff_query_is_original_key Sample.host Sample.config
           Sample.reporter Sample.install "a" Sample.infoA Sample.refA
           eq_refl eq_refl [] eq_refl).
Defined.

Lemma C4_not_found_sample :
  findMatch (hoisted Sample.install)
    (cleanQuery Sample.host Sample.config "left-pad") = None /\
  runWhy Sample.host Sample.config Sample.reporter Sample.install "left-pad"
    = (inr tt,
       [ Step 1 3 "whyStart()" ":thinking_face:";
         Step 2 3 "whyInitGraph()" ":truck:";
         Step 3 3 "whyFinding()" ":mag:";
         Error "whyUnknownMatch()" ]).
Proof.
  split; [reflexivity|].
  exact (C4_not_found_returns Sample.host Sample.config Sample.reporter
           Sample.install "left-pad" eq_refl).
Defined.

Lemma C5_hoisted_from_sample :
  findMatch (hoisted Sample.install)
    (cleanQuery Sample.host Sample.config "c") = Some Sample.infoC /\
  _reference (pkg Sample.infoC) = Some Sample.refC /\
  dependedOnReasons Sample.reporter (resolver Sample.install)
    (requests Sample.refC) [] = inr ["whyDependedOn(a#b)"] /\
  forall k,
    k ∈ previousKeys Sample.infoC -> k <> key Sample.infoC ->
    surfaced Sample.reporter
      (runWhy Sample.host Sample.config Sample.reporter Sample.install "c").2
      (lang Sample.reporter "whyHoistedFrom" [ArgString k]).
Proof.
  split; [reflexivity|]. split; [reflexivity|]. split; [reflexivity|].
  exact (proj2 (C5_hoisted_from_other_keys Sample.host Sample.config
                  Sample.reporter Sample.install "c" Sample.infoC Sample.refC
                  eq_refl eq_refl ["whyDependedOn(a#b)"] eq_refl)).
Defined.

Lemma sample_origins_are_section_names :
  sectionNames (rootPatternsToOrigin Sample.install).
Proof.
  intros pat c H. simpl in H.
  apply lookup_insert_Some in H as [[_ <-]|[_ H]]; [done|].
  apply lookup_insert_Some in H as [[_ <-]|[_ H]]; [done|].
  by rewrite lookup_empty in H.
Defined.

Lemma C6_specified_sample :
  findMatch (hoisted Sample.install)
    (cleanQuery Sample.host Sample.config "c") = Some Sample.infoC /\
  _reference (pkg Sample.infoC) = Some Sample.refC /\
  sectionNames (rootPatternsToOrigin Sample.install) /\
  dependedOnReasons Sample.reporter (resolver Sample.install)
    (requests Sample.refC) [] = inr ["whyDependedOn(a#b)"] /\
  forall pat c,
    pat ∈ patterns Sample.refC ->
    rootPatternsToOrigin Sample.install !! pat = Some c ->
    surfaced Sample.reporter
      (runWhy Sample.host Sample.config Sample.reporter Sample.install "c").2
      (lang Sample.reporter "whySpecified" [ArgString c]).
Proof.
  split; [reflexivity|]. split; [reflexivity|].
  split; [exact sample_origins_are_section_names|]. split; [reflexivity|].
  exact (proj2 (C6_specified_reasons Sample.host Sample.config
                  Sample.reporter Sample.install "c" Sample.infoC Sample.refC
                  eq_refl eq_refl ["whyDependedOn(a#b)"]
                  sample_origins_are_section_names eq_refl)).
Defined.

Lemma sample_provenance_complete :
  forall request, request ∈ requests Sample.refC ->
    forall q, q ∈ ancestors request ->
      is_Some (getResolvedPattern (resolver Sample.install) (pattern q)).
Proof.
  intros request Hin q Hq. simpl in Hin.
  split_elem_of; subst request;
    cbv [ancestors chainToRoot parentRequest
         Sample.reqC Sample.reqC2 Sample.reqB Sample.reqA] in Hq;
    split_elem_of; subst q; by eexists.
Defined.

Lemma C7_complete_provenance_sample :
  findMatch (hoisted Sample.install)
    (cleanQuery Sample.host Sample.config "c") = Some Sample.infoC /\
  _reference (pkg Sample.infoC) = Some Sample.refC /\
  (forall request, request ∈ requests Sample.refC ->
     forall q, q ∈ ancestors request ->
       is_Some (getResolvedPattern (resolver Sample.install) (pattern q))) /\
  (runWhy Sample.host Sample.config Sample.reporter Sample.install "c").1
    = inr tt.
Proof.
  split; [reflexivity|]. split; [reflexivity|].
  split; [exact sample_provenance_complete|].
  exact (proj2 (proj2 (C7_complete_provenance_never_fails Sample.host
                  Sample.config Sample.reporter Sample.install "c"
                  Sample.infoC Sample.refC eq_refl eq_refl
                  sample_provenance_complete))).
Defined.

Lemma sample_no_resolved_parent :
  forall request, request ∈ requests Sample.refC ->
    parentRequest request = None \/
    exists parent,
      parentRequest request = Some parent /\
      getResolvedPattern (resolver Sample.installWithoutB) (pattern parent)
        = None.
Proof.
  intros request Hin. simpl in Hin. split_elem_of; subst request.
  - right. by exists Sample.reqB.
  - by left.
Defined.

Lemma C8_no_chain_sample :
  findMatch (hoisted Sample.installWithoutB)
    (cleanQuery Sample.host Sample.config "c") = Some Sample.infoC /\
  _reference (pkg Sample.infoC) = Some Sample.refC /\
  (forall request, request ∈ requests Sample.refC ->
     parentRequest request = None \/
     exists parent,
       parentRequest request = Some parent /\
       getResolvedPattern (resolver Sample.installWithoutB) (pattern parent)
         = None) /\
  runWhy Sample.host Sample.config Sample.reporter Sample.installWithoutB "c"
    = (inr tt,
       [ Step 1 3 "whyStart()" ":thinking_face:";
         Step 2 3 "whyInitGraph()" ":truck:";
         Step 3 3 "whyFinding()" ":mag:";
         Info "whyReasons()";
         List "reasons"
           [ "whySpecified(devDependencies)"; "whyHoistedFrom(a#b#c)" ];
         Info "whyDiskSizeWithout(0MB)";
         Info "whyDiskSizeUnique(0MB)";
         Info "whyDiskSizeTransitive(0MB)";
         Info "whySharedDependencies(0)" ]).
Proof.
  split; [reflexivity|]. split; [reflexivity|].
  split; [exact sample_no_resolved_parent|].
  exact (proj2 (proj2 (C8_no_chain_without_resolved_parent Sample.host
                  Sample.config Sample.reporter Sample.installWithoutB "c"
                  Sample.infoC Sample.refC eq_refl eq_refl
                  sample_no_resolved_parent))).
Defined.

Lemma C9_cleanQuery_sample :
  isAbsolute Sample.host "node_modules/foo/node_modules/bar/index.js"
    && fs_exists Sample.host "node_modules/foo/node_modules/bar/index.js"
    = false /\
  allChars notLineTerminator "node_modules/foo/node_modules/bar/index.js"
    = true /\
  cleanQuery Sample.host Sample.config
    "node_modules/foo/node_modules/bar/index.js" = "foo#bar" /\
  cleanQueryString "foo#bar" = "foo#bar".
Proof.
  split; [reflexivity|]. split; [reflexivity|]. split; [reflexivity|].
  exact (proj1 (proj2 (C9_cleanQuery_idempotent Sample.host Sample.config
                  "node_modules/foo/node_modules/bar/index.js"
                  eq_refl eq_refl))).
Defined.

Lemma C10_constant_statistics_sample :
  findMatch (hoisted Sample.install)
    (cleanQuery Sample.host Sample.config "c") = Some Sample.infoC /\
  (runWhy Sample.host Sample.config Sample.reporter Sample.install "c").1
    = inr tt /\
  exists before,
    (runWhy Sample.host Sample.config Sample.reporter Sample.install "c").2
      = before
        ++ [ Info "whyDiskSizeWithout(0MB)";
             Info "whyDiskSizeUnique(0MB)";
             Info "whyDiskSizeTransitive(0MB)";
             Info "whySharedDependencies(0)" ].
Proof.
  split; [reflexivity|]. split; [reflexivity|].
  exact (C10_constant_statistics Sample.host Sample.config Sample.reporter
           Sample.install "c" Sample.infoC eq_refl eq_refl).
Defined.

(** * Further properties of cleanQuery *)

Lemma append_cons (x : ascii) (a b : string) :
  String x a +:+ b = String x (a +:+ b).
Proof. reflexivity. Qed.

Lemma string_append_assoc (a b c : string) :
  (a +:+ b) +:+ c = a +:+ b +:+ c.
Proof.
  induction a as [|x a IH]; [done|]. by rewrite !append_cons, IH.
Qed.

Lemma allChars_append (p : ascii -> bool) (a b : string) :
  allChars p (a +:+ b) = allChars p a && allChars p b.
Proof.
  induction a as [|x a IH]; [done|].
  rewrite append_cons. simpl. by rewrite IH, andb_assoc.
Qed.

Lemma allChars_join_hash (names : list string) :
  Forall (fun n => allChars notSep n = true) names ->
  allChars notSep (join "#" names) = true.
Proof.
  induction 1 as [|n rest Hn Hrest IH]; [done|].
  destruct rest as [|n' rest]; [done|].
  change (join "#" (n :: n' :: rest))
    with (n +:+ "#" +:+ join "#" (n' :: rest)).
  rewrite !allChars_append, Hn, IH. reflexivity.
Qed.

(** The first replacement copies a stretch without separators that is not at
    index 0. *)
Lemma replace_nodeModules_copies (n s : string) :
  allChars notSep n = true ->
  replaceFrom reNodeModules "#" false O (n +:+ s)
    = n +:+ replaceFrom reNodeModules "#" false O s.
Proof.
  induction n as [|c t IH]; intros H; [done|].
  simpl in H. apply andb_true_iff in H as [Hc Ht].
  unfold notSep in Hc. apply negb_true_iff in Hc.
  rewrite append_cons. cbn [replaceFrom]. unfold reNodeModules at 1. cbn [headIs andb].
  rewrite Hc. cbn [andb]. rewrite (IH Ht). reflexivity.
Qed.

Lemma replace_nodeModules_inner_dir (s : string) :
  replaceFrom reNodeModules "#" false O ("/node_modules/" +:+ s)
    = "#" +:+ replaceFrom reNodeModules "#" false O s.
Proof. reflexivity. Qed.

Lemma replace_nodeModules_first_dir (s : string) :
  replace reNodeModules "#" ("node_modules/" +:+ s)
    = "#" +:+ replaceFrom reNodeModules "#" false O s.
Proof. reflexivity. Qed.

Lemma replace_nodeModules_names (names : list string) (tail : string) :
  Forall (fun n => allChars notSep n = true) names ->
  replaceFrom reNodeModules "#" false O (join "/node_modules/" names +:+ tail)
    = join "#" names +:+ replaceFrom reNodeModules "#" false O tail.
Proof.
  induction 1 as [|n rest Hn Hrest IH]; [done|].
  destruct rest as [|n' rest].
  - by apply replace_nodeModules_copies.
  - change (join "/node_modules/" (n :: n' :: rest))
      with (n +:+ "/node_modules/" +:+ join "/node_modules/" (n' :: rest)).
    change (join "#" (n :: n' :: rest))
      with (n +:+ "#" +:+ join "#" (n' :: rest)).
    rewrite !string_append_assoc.
    rewrite (replace_nodeModules_copies n _ Hn).
    rewrite replace_nodeModules_inner_dir, IH. reflexivity.
Qed.

(** The third replacement cuts at a separator that no line terminator
    follows, when none comes before it. *)
Lemma replace_pathTail_cuts_at (j rest : string) (c : ascii)
    (atStart : bool) :
  allChars notSep j = true -> isSep c = true ->
  allChars notLineTerminator rest = true ->
  replaceFrom rePathTail "" atStart O (j +:+ String c rest) = j.
Proof.
  intros Hj Hc Hrest. revert atStart.
  induction j as [|a j IH]; intros atStart.
  - rewrite append_empty_l. simpl. rewrite Hc, Hrest. simpl.
    by rewrite append_empty_l, replaceFrom_pathTail_skip_all.
  - simpl in Hj. apply andb_true_iff in Hj as [Ha Hj].
    unfold notSep in Ha. apply negb_true_iff in Ha.
    rewrite append_cons. simpl. rewrite Ha. simpl. by rewrite (IH Hj).
Qed.

Lemma headIs_append (p : ascii -> bool) (a b : string) :
  headIs p a = false -> headIs p b = false -> headIs p (a +:+ b) = false.
Proof. by destruct a. Qed.

Lemma append_empty_r (s : string) : s +:+ "" = s.
Proof. induction s as [|c t IH]; [done|]. by rewrite append_cons, IH. Qed.

Lemma isSep_not_hash (c : ascii) : isSep c = true -> isHash c = false.
Proof.
  unfold isSep. intros H.
  apply orb_true_iff in H as [H|H]; apply Ascii.eqb_eq in H; by subst c.
Qed.

(** X1: whatever the host and the query, the cleaned query does not begin
    with '#'. *)
Theorem cleanQuery_never_begins_with_hash (host : Host) (config : Config)
    (query : string) :
  headIs isHash (cleanQuery host config query) = false.
Proof. unfold cleanQuery. apply cleanQueryString_no_leading_hash. Qed.

(** X2: among the strings without line terminators, the string
    transformation of cleanQuery leaves exactly those unchanged that hold no
    path separator and do not begin with '#': a package name, or a hash query
    such as a#b. *)
Theorem cleanQueryString_fixed_points (s : string) :
  allChars notLineTerminator s = true ->
  (cleanQueryString s = s <->
   allChars notSep s = true /\ headIs isHash s = false).
Proof.
  intros Hlt. split.
  - intros Heq. rewrite <- Heq. split.
    + by apply cleanQueryString_no_separator.
    + apply cleanQueryString_no_leading_hash.
  - intros [Hsep Hhash]. by apply cleanQueryString_fixed.
Qed.

Lemma cleanQueryString_fixed_points_sample :
  allChars notLineTerminator "left-pad#lodash" = true /\
  (cleanQueryString "left-pad#lodash" = "left-pad#lodash" <->
   allChars notSep "left-pad#lodash" = true /\
   headIs isHash "left-pad#lodash" = false).
Proof.
  split; [reflexivity|].
  exact (cleanQueryString_fixed_points "left-pad#lodash" eq_refl).
Defined.

Lemma location_cleaned (names : list string) (tail : string) :
  Forall (fun n => allChars notSep n = true) names ->
  headIs isHash (join "#" names) = false ->
  (tail = "" \/
   exists c rest,
     tail = String c rest /\ isSep c = true /\
     nodeModulesSep rest = false /\
     allChars notLineTerminator rest = true) ->
  cleanQueryString (nodeModulesLocation names tail) = join "#" names.
Proof.
  intros Hnames Hhash Htail.
  pose proof (allChars_join_hash names Hnames) as Hsep.
  unfold cleanQueryString, nodeModulesLocation.
  rewrite replace_nodeModules_first_dir.
  rewrite (replace_nodeModules_names names tail Hnames).
  rewrite replace_leadingHashes, append_cons, append_empty_l.
  destruct Htail as [->|(c & rest & -> & Hc & Hnm & Hlt)].
  - change (replaceFrom reNodeModules "#" false 0 "") with "".
    rewrite append_empty_r. simpl.
    rewrite (countLeading_headIs _ _ Hhash).
    replace (dropChars 0 (join "#" names)) with (join "#" names)
      by (by destruct (join "#" names)).
    by apply replace_pathTail_noSep.
  - assert (replaceFrom reNodeModules "#" false 0 (String c rest)
            = String c (replaceFrom reNodeModules "#" false 0 rest)) as ->.
    { cbn [replaceFrom]. unfold reNodeModules at 1.
      cbn [headIs dropChars andb]. by rewrite Hc, Hnm. }
    simpl.
    rewrite (countLeading_headIs isHash (join "#" names +:+ _)).
    + replace (dropChars 0 (join "#" names +:+ String c
                 (replaceFrom reNodeModules "#" false 0 rest)))
        with (join "#" names +:+ String c
                (replaceFrom reNodeModules "#" false 0 rest))
        by (by destruct (join "#" names +:+ _)).
      apply replace_pathTail_cuts_at; [done|done|].
      by apply replace_nodeModules_allChars.
    + apply headIs_append; [done|]. simpl. by apply isSep_not_hash.
Qed.

(** X3: the location of a package below nested node_modules directories
    becomes the hash query of the package names: for names without
    separators whose hash query does not begin with '#', the path
    node_modules/n1/node_modules/n2/.../nk, alone or followed by a separator
    and a rest without line terminators that does not begin with another
    node_modules directory, is cleaned to n1#n2#...#nk. *)
Theorem cleanQueryString_node_modules_location (names : list string)
    (tail : string) :
  Forall (fun n => allChars notSep n = true) names ->
  headIs isHash (join "#" names) = false ->
  (tail = "" \/
   exists c rest,
     tail = String c rest /\ isSep c = true /\
     nodeModulesSep rest = false /\
     allChars notLineTerminator rest = true) ->
  cleanQueryString (nodeModulesLocation names tail) = join "#" names.
Proof.
  apply location_cleaned.
Qed.

Lemma cleanQueryString_node_modules_location_sample :
  Forall (fun n => allChars notSep n = true) ["a"; "b"; "c"] /\
  headIs isHash (join "#" ["a"; "b"; "c"]) = false /\
  cleanQueryString
    "node_modules/a/node_modules/b/node_modules/c/lib/index.js" = "a#b#c".
Proof.
  split; [by repeat constructor|]. split; [reflexivity|].
  apply (cleanQueryString_node_modules_location ["a"; "b"; "c"]
           "/lib/index.js").
  - by repeat constructor.
  - reflexivity.
  - right. exists "/"%char, "lib/index.js". by repeat split.
Defined.

(** X4: an absolute path that exists is first made relative to the working
    directory; when that relative path is the location of a package below
    node_modules directories, as in X3, the cleaned query is the hash query
    of the package names. *)
Theorem cleanQuery_absolute_location (host : Host) (config : Config)
    (query : string) (names : list string) (tail : string) :
  isAbsolute host query && fs_exists host query = true ->
  relative host (cwd config) query = nodeModulesLocation names tail ->
  Forall (fun n => allChars notSep n = true) names ->
  headIs isHash (join "#" names) = false ->
  (tail = "" \/
   exists c rest,
     tail = String c rest /\ isSep c = true /\
     nodeModulesSep rest = false /\
     allChars notLineTerminator rest = true) ->
  cleanQuery host config query = join "#" names.
Proof.
  intros Hpath Hrel Hnames Hhash Htail.
  unfold cleanQuery. rewrite Hpath, Hrel. by apply location_cleaned.
Qed.

Lemma cleanQuery_absolute_location_sample :
  isAbsolute Edge.hostWithFiles "/project/node_modules/a/node_modules/b"
    && fs_exists Edge.hostWithFiles "/project/node_modules/a/node_modules/b"
    = true /\
  relative Edge.hostWithFiles (cwd Sample.config)
    "/project/node_modules/a/node_modules/b"
    = nodeModulesLocation ["a"; "b"] "" /\
  cleanQuery Edge.hostWithFiles Sample.config
    "/project/node_modules/a/node_modules/b" = "a#b".
Proof.
  split; [reflexivity|]. split; [reflexivity|].
  apply (cleanQuery_absolute_location Edge.hostWithFiles Sample.config
           "/project/node_modules/a/node_modules/b" ["a"; "b"] "").
  - reflexivity.
  - reflexivity.
  - by repeat constructor.
  - reflexivity.
  - by left.
Defined.

Lemma replace_nodeModules_length (s : string) :
  forall atStart skip,
    (String.length (replaceFrom reNodeModules "#" atStart skip s)
     <= String.length s)%nat.
Proof.
  induction s as [|c t IH]; intros atStart skip.
  - destruct skip, atStart; simpl; lia.
  - cbn [replaceFrom]. destruct skip as [|k].
    + unfold reNodeModules at 1.
      destruct (headIs isSep (String c t)
                && nodeModulesSep (dropChars 1 (String c t))).
      * rewrite append_cons, append_empty_l. simpl.
        specialize (IH false 13%nat). lia.
      * destruct (atStart && nodeModulesSep (String c t)).
        -- rewrite append_cons, append_empty_l. simpl.
           specialize (IH false 12%nat). lia.
        -- simpl. specialize (IH false O). lia.
    + simpl. specialize (IH false k). lia.
Qed.

Lemma dropChars_length (s : string) :
  forall n, (String.length (dropChars n s) <= String.length s)%nat.
Proof.
  induction s as [|c t IH]; intros [|n]; simpl; try lia.
  specialize (IH n). lia.
Qed.

Lemma replace_pathTail_length (s : string) :
  forall atStart,
    (String.length (replaceFrom rePathTail "" atStart O s)
     <= String.length s)%nat.
Proof.
  induction s as [|c t IH]; intros atStart; simpl; [lia|].
  destruct (isSep c && allChars notLineTerminator t).
  - rewrite append_empty_l, replaceFrom_pathTail_skip_all. simpl. lia.
  - simpl. specialize (IH false). lia.
Qed.

(** X5: cleaning never lengthens a query. *)
Theorem cleanQueryString_not_longer (query : string) :
  (String.length (cleanQueryString query) <= String.length query)%nat.
Proof.
  unfold cleanQueryString, replace at 1.
  etransitivity; [apply replace_pathTail_length|].
  rewrite replace_leadingHashes.
  etransitivity; [apply dropChars_length|].
  apply replace_nodeModules_length.
Qed.

(** * Further properties of run *)

Lemma walkChain_resolved (resolver : PackageResolver) (delegator : Request)
    (chain out : list string) :
  walkChain resolver delegator chain = inr out ->
  forall q, q ∈ chainToRoot delegator ->
    is_Some (getResolvedPattern resolver (pattern q)).
Proof.
  intros Hwalk q Hq.
  pose proof (walkChain_outcome resolver delegator chain) as H.
  rewrite Hwalk in H. destruct H as (names & _ & Hnames).
  apply list_elem_of_lookup in Hq as [i Hi].
  destruct (Forall2_lookup_r _ _ _ _ _ Hnames Hi) as (n & _ & m & Hm & _).
  by exists m.
Qed.

(** An iteration throws only behind the test of lines 88 to 96, and what it
    throws names an unresolved pattern of an ancestor. *)
Lemma dependedOnReason_throws (reporter : Reporter)
    (resolver : PackageResolver) (request : Request) (e : Exception) :
  dependedOnReason reporter resolver request = inl e ->
  hasResolvedParent resolver request = true /\
  exists q,
    q ∈ ancestors request /\
    getResolvedPattern resolver (pattern q) = None /\
    e = UnresolvedPatternError (pattern q).
Proof.
  unfold dependedOnReason, hasResolvedParent, ancestors.
  destruct (parentRequest request) as [p|]; [|done].
  destruct (getResolvedPattern resolver (pattern p)); [|done].
  pose proof (walkChain_outcome resolver p []) as H.
  destruct (walkChain resolver p []) as [e'|out]; [|done].
  by intros [= <-].
Qed.

(** An iteration gives a reason exactly behind the test of lines 88 to 96. *)
Lemma dependedOnReason_gives (reporter : Reporter)
    (resolver : PackageResolver) (request : Request) (o : option string) :
  dependedOnReason reporter resolver request = inr o ->
  (is_Some o <-> hasResolvedParent resolver request = true) /\
  (hasResolvedParent resolver request = true ->
   forall q, q ∈ ancestors request ->
     is_Some (getResolvedPattern resolver (pattern q))).
Proof.
  unfold dependedOnReason, hasResolvedParent, ancestors.
  destruct (parentRequest request) as [p|].
  - destruct (getResolvedPattern resolver (pattern p)).
    + destruct (walkChain resolver p []) as [e'|out] eqn:Hwalk; [done|].
      intros [= <-]. split; [by split; [|eexists]|].
      intros _. by eapply walkChain_resolved.
    + intros [= <-]. split; [|done]. split; [by intros [? ?]|done].
  - intros [= <-]. split; [|done]. split; [by intros [? ?]|done].
Qed.

Lemma dependedOnReasons_chainsResolved (reporter : Reporter)
    (resolver : PackageResolver) (matchRequests : list Request) :
  (exists deps,
     dependedOnReasons reporter resolver matchRequests [] = inr deps) <->
  chainsResolved resolver matchRequests.
Proof.
  pose proof (dependedOnReasons_outcome reporter resolver matchRequests [])
    as H.
  split.
  - intros [deps Hdeps]. rewrite Hdeps in H.
    destruct H as (produced & _ & Hp).
    intros request Hin Hparent.
    apply list_elem_of_lookup in Hin as [i Hi].
    destruct (Forall2_lookup_l _ _ _ _ _ Hp Hi) as (o & _ & Ho).
    by apply (dependedOnReason_gives _ _ _ _ Ho).
  - intros Hall.
    destruct (dependedOnReasons reporter resolver matchRequests [])
      as [e|deps]; [|by eexists].
    destruct H as (request & Hin & He).
    apply dependedOnReason_throws in He
      as (Hparent & q & Hq & Hnone & _).
    destruct (Hall request Hin Hparent q Hq) as [m Hm]. congruence.
Qed.

Lemma omap_id_length_filter (reporter : Reporter)
    (resolver : PackageResolver) (matchRequests : list Request)
    (produced : list (option string)) :
  Forall2 (fun request o =>
             dependedOnReason reporter resolver request = inr o)
    matchRequests produced ->
  length (omap id produced)
    = length (filter (fun request =>
                        hasResolvedParent resolver request = true)
                matchRequests).
Proof.
  induction 1 as [|request o rest produced Ho Hrest IH]; [done|].
  rewrite filter_cons. apply dependedOnReason_gives in Ho as [Ho _].
  destruct o as [reason|].
  - change (omap id (Some reason :: produced))
      with (reason :: omap id produced).
    rewrite decide_True by (apply Ho; by eexists).
    cbn [length]. by rewrite IH.
  - change (omap id (None :: produced)) with (omap id produced).
    rewrite decide_False; [done|].
    intros Hparent. apply Ho in Hparent as [? ?]. done.
Qed.

(** X6: when the loop over the requests completes, it has given one reason
    for each request that has a parent request with a resolved pattern,
    however many requests share a parent chain: nothing is merged. *)
Theorem dependedOnReasons_one_per_request (reporter : Reporter)
    (resolver : PackageResolver) (matchRequests : list Request)
    (deps : list string) :
  dependedOnReasons reporter resolver matchRequests [] = inr deps ->
  length deps
    = length (filter (fun request =>
                        hasResolvedParent resolver request = true)
                matchRequests).
Proof.
  intros Hdeps.
  pose proof (dependedOnReasons_outcome reporter resolver matchRequests [])
    as H.
  rewrite Hdeps in H. destruct H as (produced & -> & Hp).
  simpl. by eapply omap_id_length_filter.
Qed.

Lemma dependedOnReasons_one_per_request_sample :
  dependedOnReasons Sample.reporter Sample.graph
    [Sample.reqC; Sample.reqC2; Sample.reqC; Sample.reqB] []
    = inr ["whyDependedOn(a#b)"; "whyDependedOn(a#b)"; "whyDependedOn(a)"] /\
  length ["whyDependedOn(a#b)"; "whyDependedOn(a#b)"; "whyDependedOn(a)"]
    = length (filter (fun request =>
                        hasResolvedParent Sample.graph request = true)
                [Sample.reqC; Sample.reqC2; Sample.reqC; Sample.reqB]).
Proof.
  split; [reflexivity|].
  exact (dependedOnReasons_one_per_request Sample.reporter Sample.graph
           [Sample.reqC; Sample.reqC2; Sample.reqC; Sample.reqB]
           ["whyDependedOn(a#b)"; "whyDependedOn(a#b)"; "whyDependedOn(a)"]
           eq_refl).
Defined.

Lemma specifiedList_nil (reporter : Reporter) (origins : gmap string string)
    (matchPatterns : list string) :
  (forall pat, pat ∈ matchPatterns ->
     origins !! pat = None \/ origins !! pat = Some "") ->
  specifiedList reporter origins matchPatterns = [].
Proof.
  intros Hall. unfold specifiedList.
  destruct (omap (reportedOrigin origins) matchPatterns) as [|c rest] eqn:E;
    [done|].
  assert (c ∈ omap (reportedOrigin origins) matchPatterns) as Hc.
  { rewrite E. apply elem_of_cons. by left. }
  apply list_elem_of_omap in Hc as (pat & Hpat & Hc).
  apply reportedOrigin_Some in Hc as [Hc Hne].
  destruct (Hall pat Hpat) as [Hnone|Hblank]; congruence.
Qed.

Lemma hoistedFromList_nil (reporter : Reporter) (match_ : HoistManifest) :
  (forall k, k ∈ previousKeys match_ -> k = key match_) ->
  hoistedFromList reporter match_ = [].
Proof.
  intros Hall. unfold hoistedFromList.
  destruct (filter (fun k => k <> key match_) (previousKeys match_))
    as [|k rest] eqn:E; [done|].
  assert (k ∈ filter (fun k => k <> key match_) (previousKeys match_)) as Hk.
  { rewrite E. apply elem_of_cons. by left. }
  apply list_elem_of_filter in Hk as [Hne Hk]. by destruct (Hne (Hall k Hk)).
Qed.

Section WhenFound.

Variables (host : Host) (config : Config) (reporter : Reporter).
Variables (install : Install) (arg : string).
Variables (match_ : HoistManifest).

Hypothesis Hfound :
  findMatch (hoisted install) (cleanQuery host config arg) = Some match_.

(** X7: when the package of the entry that was found has no reference, the
    run throws the invariant violation "expected reference", and the
    reporter got the three steps only. *)
Theorem run_missing_reference :
  _reference (pkg match_) = None ->
  runWhy host config reporter install arg
    = (inl (InvariantViolation "expected reference"),
       [ Step 1 3 (lang reporter "whyStart" [])
           (emoji_get host "thinking_face");
         Step 2 3 (lang reporter "whyInitGraph" []) (emoji_get host "truck");
         Step 3 3 (lang reporter "whyFinding" []) (emoji_get host "mag") ]).
Proof. intros Href. by rewrite (runWhy_no_reference _ _ _ _ _ _ Hfound). Qed.

Variable matchRef : PackageReference.
Hypothesis Href : _reference (pkg match_) = Some matchRef.

(** X8: with an entry found and its reference present, the run returns
    normally exactly when every request of the package that has a parent
    with a resolved pattern has all its ancestors resolved.  Otherwise it
    throws the error of the strict accessor for an unresolved pattern of an
    ancestor of one of the requests, and the reporter got the three steps
    only: no reason and no statistics. *)
Theorem run_returns_iff_chains_resolved :
  ((runWhy host config reporter install arg).1 = inr tt <->
   chainsResolved (resolver install) (requests matchRef)) /\
  ((runWhy host config reporter install arg).1 <> inr tt ->
   exists request q,
     request ∈ requests matchRef /\ q ∈ ancestors request /\
     getResolvedPattern (resolver install) (pattern q) = None /\
     runWhy host config reporter install arg
       = (inl (UnresolvedPatternError (pattern q)),
          stepCalls host reporter)).
Proof.
  pose proof (dependedOnReasons_outcome reporter (resolver install)
                (requests matchRef) []) as Hout.
  pose proof (dependedOnReasons_chainsResolved reporter (resolver install)
                (requests matchRef)) as Hiff.
  destruct (dependedOnReasons reporter (resolver install)
              (requests matchRef) []) as [e|deps] eqn:Hdeps.
  - rewrite (runWhy_walk_fails _ _ _ _ _ _ _ Hfound Href _ Hdeps).
    destruct Hout as (request & Hin & He).
    apply dependedOnReason_throws in He as (_ & q & Hq & Hnone & ->).
    split.
    + split; [done|]. intros Hall. apply Hiff in Hall as [deps' ?]. done.
    + intros _. by exists request, q.
  - rewrite (runWhy_found _ _ _ _ _ _ _ Hfound Href _ Hdeps). split.
    + split; [|done]. intros _. apply Hiff. by eexists.
    + intros Hne. by destruct Hne.
Qed.

(** X9: a package that no request with a resolved parent asked for, none of
    whose patterns has a classification in the origin map, and whose history
    holds nothing but its current key has no reason at all: the reporter
    gets the error whyWhoKnows in place of the reasons, and the run goes on
    to the statistics and returns normally. *)
Theorem run_who_knows :
  (forall request, request ∈ requests matchRef ->
     hasResolvedParent (resolver install) request = false) ->
  (forall pat, pat ∈ patterns matchRef ->
     rootPatternsToOrigin install !! pat = None \/
     rootPatternsToOrigin install !! pat = Some "") ->
  (forall k, k ∈ previousKeys match_ -> k = key match_) ->
  runWhy host config reporter install arg
    = (inr tt,
       stepCalls host reporter
       ++ hoistedToCalls reporter (cleanQuery host config arg) match_
       ++ [Error (lang reporter "whyWhoKnows" [])]
       ++ statsCalls reporter).
Proof.
  intros Hreq Hpat Hkeys.
  assert (dependedOnReasons reporter (resolver install) (requests matchRef) []
          = inr []) as Hdeps.
  { apply dependedOnReasons_all_skipped. intros request Hin.
    specialize (Hreq request Hin).
    unfold hasResolvedParent in Hreq. unfold dependedOnReason.
    destruct (parentRequest request) as [p|]; [|done].
    by destruct (getResolvedPattern (resolver install) (pattern p)). }
  rewrite (runWhy_found _ _ _ _ _ _ _ Hfound Href _ Hdeps).
  by rewrite (specifiedList_nil _ _ _ Hpat), (hoistedFromList_nil _ _ Hkeys).
Qed.

End WhenFound.

(** X10: once [args[0]] is a string and lines 56 to 60 have delivered the
    install, the code of why.js itself ends in one of four ways, and in no
    other: the query is not found, and the reporter got from it the three
    steps and the error whyUnknownMatch; or the package found has no
    reference, and it throws the invariant violation behind the three
    steps; or the strict accessor fails at an unresolved pattern, and it
    throws that error behind the three steps; or it returns normally and the
    reporter got from it the three steps, the "hoisted to" fact if the query
    is the original key, the reasons or the error whyWhoKnows, and the four
    statistics. *)
Theorem run_outcomes (host : Host) (config : Config) (reporter : Reporter)
    (install : Install) (arg : string) :
  (findMatch (hoisted install) (cleanQuery host config arg) = None /\
   runWhy host config reporter install arg
     = (inr tt,
        stepCalls host reporter
        ++ [Error (lang reporter "whyUnknownMatch" [])])) \/
  (exists match_,
     findMatch (hoisted install) (cleanQuery host config arg) = Some match_ /\
     _reference (pkg match_) = None /\
     runWhy host config reporter install arg
       = (inl (InvariantViolation "expected reference"),
          stepCalls host reporter)) \/
  (exists match_ pat,
     findMatch (hoisted install) (cleanQuery host config arg) = Some match_ /\
     getResolvedPattern (resolver install) pat = None /\
     runWhy host config reporter install arg
       = (inl (UnresolvedPatternError pat), stepCalls host reporter)) \/
  (exists match_ reasons,
     findMatch (hoisted install) (cleanQuery host config arg) = Some match_ /\
     runWhy host config reporter install arg
       = (inr tt,
          stepCalls host reporter
          ++ hoistedToCalls reporter (cleanQuery host config arg) match_
          ++ reasonCalls reporter reasons
          ++ statsCalls reporter)).
Proof.
  destruct (findMatch (hoisted install) (cleanQuery host config arg))
    as [match_|] eqn:Hfound.
  - right. destruct (_reference (pkg match_)) as [matchRef|] eqn:Href.
    + right.
      pose proof (dependedOnReasons_outcome reporter (resolver install)
                    (requests matchRef) []) as Hout.
      destruct (dependedOnReasons reporter (resolver install)
                  (requests matchRef) []) as [e|deps] eqn:Hdeps.
      * left. destruct Hout as (request & Hin & He).
        apply dependedOnReason_throws in He as (_ & q & Hq & Hnone & ->).
        exists match_, (pattern q). split; [done|]. split; [done|].
        by apply (runWhy_walk_fails _ _ _ _ _ _ _ Hfound Href).
      * right. eexists match_, _. split; [done|].
        by apply (runWhy_found _ _ _ _ _ _ _ Hfound Href).
    + left. exists match_. split; [done|]. split; [done|].
      exact (runWhy_no_reference _ _ _ _ _ _ Hfound Href).
  - left. split; [done|]. by apply runWhy_not_found.
Qed.

(** The further theorems at concrete inputs. *)

Lemma run_missing_reference_sample :
  findMatch (hoisted Edge.installNoReference)
    (cleanQuery Sample.host Sample.config "node_modules/b/index.js")
    = Some Edge.infoB /\
  _reference (pkg Edge.infoB) = None /\
  runWhy Sample.host Sample.config Sample.reporter Edge.installNoReference
    "node_modules/b/index.js"
    = (inl (InvariantViolation "expected reference"),
       [ Step 1 3 "whyStart()" ":thinking_face:";
         Step 2 3 "whyInitGraph()" ":truck:";
         Step 3 3 "whyFinding()" ":mag:" ]).
Proof.
  split; [reflexivity|]. split; [reflexivity|].
  exact (run_missing_reference Sample.host Sample.config Sample.reporter
           Edge.installNoReference "node_modules/b/index.js" Edge.infoB
           eq_refl eq_refl).
Defined.

Lemma run_throws_sample :
  findMatch (hoisted Edge.installWithoutA)
    (cleanQuery Sample.host Sample.config "c") = Some Sample.infoC /\
  _reference (pkg Sample.infoC) = Some Sample.refC /\
  ((runWhy Sample.host Sample.config Sample.reporter
      Edge.installWithoutA "c").1 = inr tt <->
   chainsResolved (resolver Edge.installWithoutA) (requests Sample.refC)) /\
  runWhy Sample.host Sample.config Sample.reporter Edge.installWithoutA "c"
    = (inl (UnresolvedPatternError "a@1"),
       [ Step 1 3 "whyStart()" ":thinking_face:";
         Step 2 3 "whyInitGraph()" ":truck:";
         Step 3 3 "whyFinding()" ":mag:" ]).
Proof.
  split; [reflexivity|]. split; [reflexivity|].
  split; [|reflexivity].
  exact (proj1 (run_returns_iff_chains_resolved Sample.host Sample.config
                  Sample.reporter Edge.installWithoutA "c" Sample.infoC
                  eq_refl Sample.refC eq_refl)).
Defined.

Lemma orphan_has_no_resolved_parent :
  forall request, request ∈ requests Edge.refD ->
    hasResolvedParent (resolver Edge.installOrphan) request = false.
Proof.
  intros request Hin. simpl in Hin. split_elem_of. by subst request.
Defined.

Lemma orphan_has_no_origin :
  forall pat, pat ∈ patterns Edge.refD ->
    rootPatternsToOrigin Edge.installOrphan !! pat = None \/
    rootPatternsToOrigin Edge.installOrphan !! pat = Some "".
Proof. intros pat _. by left. Defined.

Lemma orphan_history_is_its_key :
  forall k, k ∈ previousKeys Edge.infoD -> k = key Edge.infoD.
Proof. intros k Hin. simpl in Hin. by split_elem_of. Defined.

Lemma run_who_knows_sample :
  findMatch (hoisted Edge.installOrphan)
    (cleanQuery Sample.host Sample.config "d") = Some Edge.infoD /\
  _reference (pkg Edge.infoD) = Some Edge.refD /\
  runWhy Sample.host Sample.config Sample.reporter Edge.installOrphan "d"
    = (inr tt,
       [ Step 1 3 "whyStart()" ":thinking_face:";
         Step 2 3 "whyInitGraph()" ":truck:";
         Step 3 3 "whyFinding()" ":mag:";
         Error "whyWhoKnows()";
         Info "whyDiskSizeWithout(0MB)";
         Info "whyDiskSizeUnique(0MB)";
         Info "whyDiskSizeTransitive(0MB)";
         Info "whySharedDependencies(0)" ]).
Proof.
  split; [reflexivity|]. split; [reflexivity|].
  exact (run_who_knows Sample.host Sample.config Sample.reporter
           Edge.installOrphan "d" Edge.infoD eq_refl Edge.refD eq_refl
           orphan_has_no_resolved_parent orphan_has_no_origin
           orphan_history_is_its_key).
Defined.
